(** * bluesky.commandline.zmq_proxy

    A shallow embedding of [src/bluesky/commandline/zmq_proxy.py]: the
    command-line entry point that starts a 0MQ proxy for bluesky documents
    and, when asked to be verbose, a dispatcher thread that logs them.

    The module has two functions, [start_dispatcher] (with its nested
    [log_writer]) and [main].  Both are effectful: they print, warn, raise,
    construct the proxy and the dispatcher, and start a thread.  They are
    modelled in a small monad [M] that records the effects of a call, in
    order, next to its outcome (a value or a raised exception). *)

From Stdlib Require Import ZArith List String Ascii Bool Lia.
Import ListNotations.

#[local] Open Scope string_scope.
#[local] Open Scope Z_scope.

(** ** Python values that flow through the module *)

(** An address is [None], an [int] or a [str] at run time; the code decides
    between them dynamically ([x is not None], [int(x)]).  The text of a
    [str] is held in UTF-8. *)
Inductive value : Type :=
| PyNone
| PyInt (n : Z)
| PyStr (s : string).

(** A document is a dict; [log_writer] only ever formats it with [%r]. *)
Definition Document : Type := list (string * value).

(** What [argparse] hands back for an optional argument that may be missing. *)
Definition of_int (o : option Z) : value :=
  match o with Some n => PyInt n | None => PyNone end.

Definition of_str (o : option string) : value :=
  match o with Some s => PyStr s | None => PyNone end.

(** [x is not None] and [x is None] on an optional argument. *)
Definition is_not_None {A : Type} (o : option A) : bool :=
  match o with Some _ => true | None => false end.

Definition is_None {A : Type} (o : option A) : bool := negb (is_not_None o).

(** Truth value of an optional count ([if args.verbose:]): [None] and [0] are
    false. *)
Definition truthy_count (o : option nat) : bool :=
  match o with Some (S _) => true | _ => false end.

(** Truth value of an optional string ([if args.logfile:]): [None] and the
    empty string are false. *)
Definition truthy_str (o : option string) : bool :=
  match o with Some (String _ _) => true | _ => false end.

(** ** Exceptions, effects and the monad *)

Inductive exn : Type :=
| ValueError (msg : string)
| KeyboardInterrupt
| OtherException (cls msg : string).
    (* any exception of a class that is neither of the two above *)

(** The argument a new thread is started on: the only target in the module is
    [start_dispatcher], called with [args=(proxy.out_port,)], so its
    [logfile] parameter keeps its default. *)
Inductive thread_target : Type :=
| target_start_dispatcher (out_address : value) (logfile : option string).

(** The handlers the module subscribes: only [log_writer]. *)
Inductive handler : Type :=
| handler_log_writer.

(** Observable effects, in the order the code performs them.  [EvPrint fmt
    args] stands for [print(fmt % args)], and for [print(fmt)] when [args] is
    empty; [EvLog level fmt name doc] for [logger.<level>(fmt, name, doc)]. *)
Inductive event : Type :=
| EvWarn (message category : string) (stacklevel : Z)
| EvPrint (fmt : string) (args : list value)
| EvProxy (in_address out_address : value)
| EvConfigLogging (level : string) (file : option string)
| EvThreadStart (target : thread_target) (daemon : bool)
| EvProxyStart
| EvRemoteDispatcher (address : value)
| EvSubscribe (h : handler)
| EvDispatcherStart
| EvLog (level : string) (fmt : string) (name : string) (doc : Document).

Inductive result (A : Type) : Type :=
| Ok (a : A)
| Raise (e : exn).

Arguments Ok {A} a.
Arguments Raise {A} e.

Definition M (A : Type) : Type := (list event * result A)%type.

Definition ret {A : Type} (a : A) : M A := ([], Ok a).

Definition bind {A B : Type} (m : M A) (f : A -> M B) : M B :=
  match m with
  | (t, Ok a) => let (t', r) := f a in ((t ++ t')%list, r)
  | (t, Raise e) => (t, Raise e)
  end.

Definition emit (ev : event) : M unit := ([ev], Ok tt).

Definition raise {A : Type} (e : exn) : M A := ([], Raise e).

(** [try: body / except <classes>: handler], where [catches] decides whether
    the raised exception is an instance of one of the listed classes. *)
Definition try_except {A : Type} (body : M A) (catches : exn -> bool)
    (handler : M A) : M A :=
  match body with
  | (t, Raise e) =>
      if catches e then let (t', r) := handler in ((t ++ t')%list, r)
      else (t, Raise e)
  | (t, Ok a) => (t, Ok a)
  end.

Definition trace {A : Type} (m : M A) : list event := fst m.
Definition outcome {A : Type} (m : M A) : result A := snd m.

Declare Scope py_scope.
Delimit Scope py_scope with py.
Notation "x <- m ;; k" := (bind m (fun x => k))
  (at level 100, m at next level, right associativity) : py_scope.
Notation "' p <- m ;; k" := (bind m (fun x => let 'p := x in k))
  (at level 100, p pattern, m at next level, right associativity) : py_scope.
Notation "m ;; k" := (bind m (fun _ => k))
  (at level 100, right associativity) : py_scope.
#[local] Open Scope py_scope.

(** ** The builtin [int] on the values above *)

Module Builtins.

(** [Py_ISSPACE]: tab, line feed, vertical tab, form feed, carriage return
    and space. *)
Definition is_space (c : ascii) : bool :=
  let n := nat_of_ascii c in
  (((9 <=? n) && (n <=? 13)) || (n =? 32))%nat.

Definition digit (c : ascii) : option Z :=
  let n := nat_of_ascii c in
  if ((48 <=? n) && (n <=? 57))%nat then Some (Z.of_nat n - 48) else None.

Definition is_underscore (c : ascii) : bool := (nat_of_ascii c =? 95)%nat.

Fixpoint skip_spaces (s : string) : string :=
  match s with
  | String c s' => if is_space c then skip_spaces s' else s
  | EmptyString => s
  end.

(** Reads the longest run of digits and underscores.  An underscore may
    only stand between two digits.  Returns the value read, the number of
    digit characters and what follows the run. *)
Fixpoint scan (s : string) (prev_underscore : bool) (acc : Z) (digits : nat)
    : option (Z * nat * string) :=
  match s with
  | String c s' =>
      match digit c with
      | Some d => scan s' false (10 * acc + d) (S digits)
      | None =>
          if is_underscore c then
            if prev_underscore then None else scan s' true acc digits
          else if prev_underscore then None else Some (acc, digits, s)
      end
  | EmptyString => if prev_underscore then None else Some (acc, digits, s)
  end.

(** The guard of Python 3.11 on the length of decimal literals: with a
    limit [max_str_digits] other than 0, a literal of more than 640 digits
    and more than [max_str_digits] digits is refused. *)
Definition within_limit (max_str_digits digits : nat) : bool :=
  ((max_str_digits =? 0) || (digits <=? 640) || (digits <=? max_str_digits))%nat.

(** [PyLong_FromString] in base 10, on the ASCII form of a literal: blanks,
    a sign, digits with single underscores between them, blanks. *)
Definition parse (max_str_digits : nat) (s : string) : option Z :=
  let s := skip_spaces s in
  let '(sign, s) :=
    match s with
    | String "+"%char s' => (1, s')
    | String "-"%char s' => (-1, s')
    | _ => (1, s)
    end in
  match s with
  | String c _ =>
      match digit c with
      | Some _ =>
          match scan s false 0 0 with
          | Some (n, digits, rest) =>
              match skip_spaces rest with
              | EmptyString =>
                  if within_limit max_str_digits digits
                  then Some (sign * n) else None
              | String _ _ => None
              end
          | None => None
          end
      | None => None
      end
  | EmptyString => None
  end.

(** A byte 10xxxxxx. *)
Definition is_continuation (n : N) : bool :=
  ((0x80 <=? n) && (n <? 0xC0))%N.

(** A code point read from [need] bytes may not be below [lo] (no overlong
    form), above U+10FFFF or a surrogate. *)
Definition scalar_value (cp lo : N) : bool :=
  ((lo <=? cp) && (cp <=? 0x10FFFF)
   && negb ((0xD800 <=? cp) && (cp <=? 0xDFFF)))%N.

(** Text is held in UTF-8.  [utf8_decode_from s need cp lo] reads the code
    points of [s] when [need] continuation bytes are still due for the code
    point [cp] under construction.  Bytes that are not UTF-8 stand for a
    string with escaped bytes (surrogateescape), which [int] refuses: they
    have no code points here. *)
Fixpoint utf8_decode_from (s : string) (need : nat) (cp lo : N)
    : option (list N) :=
  match s with
  | EmptyString => match need with O => Some [] | S _ => None end
  | String b s' =>
      let n := N_of_ascii b in
      match need with
      | O =>
          if (n <? 0x80)%N
          then option_map (cons n) (utf8_decode_from s' 0 0%N 0%N)
          else if (n <? 0xC0)%N then None
          else if (n <? 0xE0)%N
               then utf8_decode_from s' 1 (n - 0xC0)%N 0x80%N
          else if (n <? 0xF0)%N
               then utf8_decode_from s' 2 (n - 0xE0)%N 0x800%N
          else if (n <? 0xF8)%N
               then utf8_decode_from s' 3 (n - 0xF0)%N 0x10000%N
          else None
      | S k =>
          if is_continuation n then
            let cp := (cp * 64 + (n - 0x80))%N in
            match k with
            | O =>
                if scalar_value cp lo
                then option_map (cons cp) (utf8_decode_from s' 0 0%N 0%N)
                else None
            | S _ => utf8_decode_from s' k cp lo
            end
          else None
      end
  end.

Definition utf8_decode (s : string) : option (list N) :=
  utf8_decode_from s 0 0%N 0%N.

(** [Py_UNICODE_ISSPACE] above ASCII. *)
Definition unicode_isspace (cp : N) : bool :=
  ((cp =? 0x85) || (cp =? 0xA0) || (cp =? 0x1680)
   || ((0x2000 <=? cp) && (cp <=? 0x200A))
   || (cp =? 0x2028) || (cp =? 0x2029) || (cp =? 0x202F)
   || (cp =? 0x205F) || (cp =? 0x3000))%N.

(** [Py_UNICODE_TODECIMAL]: the decimal digits of a script are ten
    consecutive code points; [zeros] lists the code point of the digit zero
    of each script in the interpreter's Unicode database. *)
Fixpoint unicode_decimal (zeros : list N) (cp : N) : option N :=
  match zeros with
  | [] => None
  | z :: zeros' =>
      if ((z <=? cp) && (cp <? z + 10))%N then Some (cp - z)%N
      else unicode_decimal zeros' cp
  end.

(** [_PyUnicode_TransformDecimalAndSpaceToASCII] on one character: below
    127 it is kept, a blank becomes a space, a decimal digit its ASCII
    digit; with any other character the text is no literal. *)
Definition to_ascii (zeros : list N) (cp : N) : option ascii :=
  if (cp <? 127)%N then Some (ascii_of_N cp)
  else if unicode_isspace cp then Some " "%char
  else match unicode_decimal zeros cp with
       | Some d => Some (ascii_of_N (48 + d))
       | None => None
       end.

Fixpoint transform (zeros : list N) (cps : list N) : option string :=
  match cps with
  | [] => Some EmptyString
  | cp :: cps' =>
      match to_ascii zeros cp, transform zeros cps' with
      | Some c, Some s => Some (String c s)
      | _, _ => None
      end
  end.

(** [int(s)] for a [str], base 10: the text is brought to its ASCII form
    and parsed.  [None] is a [ValueError]. *)
Definition of_string (zeros : list N) (max_str_digits : nat) (s : string)
    : option Z :=
  match utf8_decode s with
  | Some cps =>
      match transform zeros cps with
      | Some a => parse max_str_digits a
      | None => None
      end
  | None => None
  end.

(** The two exceptions [int] raises on these values. *)
Inductive error : Type := int_ValueError | int_TypeError.

(** [int(v)]: the identity on an [int], the parser on a [str], a
    [TypeError] on [None]. *)
Definition int (zeros : list N) (max_str_digits : nat) (v : value)
    : error + Z :=
  match v with
  | PyInt n => inr n
  | PyStr s =>
      match of_string zeros max_str_digits s with
      | Some n => inr n
      | None => inl int_ValueError
      end
  | PyNone => inl int_TypeError
  end.

End Builtins.

(** ** The collaborators imported by the module *)

(** [bluesky.callbacks.zmq.Proxy]: the module constructs it from the two
    coerced addresses, reads its [in_port] and [out_port] and calls
    [start()]. *)
Module Proxy.
Record t : Type := { in_port : value; out_port : value }.
End Proxy.

(** What the module cannot decide by itself: how the interpreter is set up
    and how the calls into the proxy and the transport end. *)
Record World : Type := {
  (* sys.get_int_max_str_digits(): 4300 unless changed, 0 for no limit *)
  int_max_str_digits : nat;
  (* the digit zero of each decimal script of the interpreter's Unicode
     database (unicodedata) *)
  unicode_decimal_zeros : list N;
  (* Proxy(in_address, out_address): the bound proxy or the exception raised *)
  Proxy_new : value -> value -> exn + Proxy.t;
  (* proxy.start(): blocks in the relay loop; how the call ends *)
  Proxy_start : Proxy.t -> exn + unit;
  (* the (name, doc) pairs the dispatcher receives, in order *)
  received : list (string * Document)
}.

Definition call {A : Type} (r : exn + A) : M A :=
  match r with inr a => ret a | inl e => raise e end.

Module RemoteDispatcher.

(** Modelled from the spec: [bluesky.callbacks.zmq.RemoteDispatcher] is not
    under src/.  It connects to the address it is given, keeps the
    subscribed handlers in registration order, and in each receive cycle of
    [start()] invokes every handler with the (name, document) pair it
    decoded.  The cycles over a finite prefix of the stream are modelled. *)
Record t : Type := {
  address : value;
  subscribers : list (string -> Document -> M unit)
}.

(** Modelled from the spec: the constructor connects to the consumer-facing
    address and starts with no handler. *)
Definition new (address : value) : M t :=
  emit (EvRemoteDispatcher address) ;;
  ret {| address := address; subscribers := [] |}.

(** Modelled from the spec: a handler is appended to the registrations. *)
Definition subscribe (d : t) (func : string -> Document -> M unit) : t :=
  {| address := address d; subscribers := (subscribers d ++ [func])%list |}.

(** Modelled from the spec: every handler is invoked with the pair, in
    registration order. *)
Fixpoint process (funcs : list (string -> Document -> M unit))
    (name : string) (doc : Document) : M unit :=
  match funcs with
  | [] => ret tt
  | func :: funcs' => func name doc ;; process funcs' name doc
  end.

(** Modelled from the spec: one receive cycle per pair of the stream. *)
Fixpoint loop (d : t) (stream : list (string * Document)) : M unit :=
  match stream with
  | [] => ret tt
  | (name, doc) :: stream' =>
      process (subscribers d) name doc ;; loop d stream'
  end.

(** Modelled from the spec: [start()] runs the receive loop. *)
Definition start (w : World) (d : t) : M unit :=
  emit EvDispatcherStart ;; loop d (received w).

End RemoteDispatcher.

Module logging.

(** The numeric value of a level name of the standard [logging] module. *)
Definition levelno (name : string) : option Z :=
  if String.eqb name "DEBUG" then Some 10
  else if String.eqb name "INFO" then Some 20
  else if String.eqb name "WARNING" then Some 30
  else if String.eqb name "ERROR" then Some 40
  else if String.eqb name "CRITICAL" then Some 50
  else None.

(** Modelled from the spec: [bluesky.log.config_bluesky_logging] is not
    under src/.  The level it is called with is the threshold of the
    log-emission layer: a call of [logger.<level>] produces a line when its
    level is at least the configured one. *)
Definition emitted (configured level : string) : bool :=
  match levelno configured, levelno level with
  | Some c, Some l => c <=? l
  | _, _ => false
  end.

(** Modelled from the spec: the log calls of a trace that produce a line
    once [config_bluesky_logging] was called with level [configured]. *)
Definition output (configured : string) (t : list event) : list event :=
  filter (fun ev =>
            match ev with
            | EvLog level _ _ _ => emitted configured level
            | _ => false
            end) t.

End logging.

(** ** [start_dispatcher] and [log_writer] (lines 11-39) *)

Definition MSG_LOGFILE_DEPRECATED : string :=
  "Parameter 'logfile' is deprecated and will be removed in future releases. "
  ++ "Currently it does not have effect. Call the function with 'logfile=None' ".

(** [name in ("start", "stop")] *)
Definition in_start_stop (name : string) : bool :=
  existsb (String.eqb name) ["start"; "stop"].

Definition log_writer (name : string) (doc : Document) : M unit :=
  if in_start_stop name
  then emit (EvLog "INFO" "%s: %r" name doc)
  else emit (EvLog "DEBUG" "%s: %r" name doc).

Definition start_dispatcher (w : World) (out_address : value)
    (logfile : option string) : M unit :=
  dispatcher <- RemoteDispatcher.new out_address ;;
  (if is_not_None logfile
   then raise (ValueError MSG_LOGFILE_DEPRECATED)
   else ret tt) ;;
  let dispatcher := RemoteDispatcher.subscribe dispatcher log_writer in
  RemoteDispatcher.start w dispatcher.

(** What a started thread runs. *)
Definition run_target (w : World) (target : thread_target) : M unit :=
  match target with
  | target_start_dispatcher out_address logfile =>
      start_dispatcher w out_address logfile
  end.

(** ** [main] (lines 42-124) *)

(** The result of [parser.parse_args()]: the two named addresses are
    strings, the two positional ports are parsed with [type=int], [--verbose]
    is a count, [--logfile] a string; each is [None] when not given. *)
Record Namespace : Type := {
  in_address_opt : option string;
  out_address_opt : option string;
  in_port : option Z;
  out_port : option Z;
  verbose : option nat;
  logfile : option string
}.

Definition MSG_BOTH_PORTS : string :=
  "Both in_port and out_port positional arguments must be provided together. "
  ++ "Consider using the new optional arguments instead: "
  ++ "--in-address and --out-address".

Definition MSG_MIXED : string :=
  "Cannot mix positional arguments (in_port, out_port) with optional arguments "
  ++ "(--in-address, --out-address).".

Definition MSG_DEPRECATED_PORTS : string :=
  "Using positional arguments for in_port and out_port is deprecated. "
  ++ "Use --in-address and --out-address instead.".

(** Lines 63-94: the pair [(in_address, out_address)] the arguments are
    reconciled to. *)
Definition resolve_addresses (args : Namespace) : M (value * value) :=
  if is_not_None (in_port args) || is_not_None (out_port args) then
    (if is_None (in_port args) || is_None (out_port args)
     then raise (ValueError MSG_BOTH_PORTS) else ret tt) ;;
    (if is_not_None (in_address_opt args) || is_not_None (out_address_opt args)
     then raise (ValueError MSG_MIXED) else ret tt) ;;
    emit (EvWarn MSG_DEPRECATED_PORTS "FutureWarning" 1) ;;
    ret (of_int (in_port args), of_int (out_port args))
  else
    ret (of_str (in_address_opt args), of_str (out_address_opt args)).

(** Lines 97-100 and 101-104: [try: x = int(x) / except (ValueError,
    TypeError): pass]. *)
Definition coerce (w : World) (address : value) : value :=
  match Builtins.int (unicode_decimal_zeros w) (int_max_str_digits w) address with
  | inr n => PyInt n
  | inl Builtins.int_ValueError => address
  | inl Builtins.int_TypeError => address
  end.

(** [level = "INFO" if args.verbose <= 2 else "DEBUG"] *)
Definition level_of (count : nat) : string :=
  if (count <=? 2)%nat then "INFO" else "DEBUG".

Definition is_KeyboardInterrupt (e : exn) : bool :=
  match e with KeyboardInterrupt => true | _ => false end.

Definition main (w : World) (args : Namespace) : M unit :=
  '(in_address, out_address) <- resolve_addresses args ;;
  emit (EvPrint "Connecting..." []) ;;
  let in_address := coerce w in_address in
  let out_address := coerce w out_address in
  proxy <- (emit (EvProxy in_address out_address) ;;
            call (Proxy_new w in_address out_address)) ;;
  emit (EvPrint "Receiving on address %s; publishing to address %s."
                [Proxy.in_port proxy; Proxy.out_port proxy]) ;;
  (if truthy_count (verbose args) then
     let level := level_of (match verbose args with Some n => n | None => 0%nat end) in
     (if truthy_str (logfile args)
      then emit (EvConfigLogging level (logfile args))
      else emit (EvConfigLogging level None)) ;;
     emit (EvThreadStart
             (target_start_dispatcher (Proxy.out_port proxy) None) true)
   else ret tt) ;;
  emit (EvPrint "Use Ctrl+C to exit." []) ;;
  try_except (emit EvProxyStart ;; call (Proxy_start w proxy))
             is_KeyboardInterrupt
             (emit (EvPrint "Interrupted. Exiting..." [])).

(** ** The shape of a run of [main] *)

(** The effects of lines 108-118, once the proxy [p] is bound. *)
Definition verbose_events (args : Namespace) (p : Proxy.t) : list event :=
  match verbose args with
  | Some (S n) =>
      [EvConfigLogging (level_of (S n))
         (if truthy_str (logfile args) then logfile args else None);
       EvThreadStart (target_start_dispatcher (Proxy.out_port p) None) true]
  | _ => []
  end.

(** The effects of lines 121-124, by the way [proxy.start()] ends. *)
Definition final_events (r : exn + unit) : list event :=
  match r with
  | inl KeyboardInterrupt => [EvProxyStart; EvPrint "Interrupted. Exiting..." []]
  | _ => [EvProxyStart]
  end.

Definition final_outcome (r : exn + unit) : result unit :=
  match r with
  | inl KeyboardInterrupt => Ok tt
  | inl e => Raise e
  | inr tt => Ok tt
  end.

(** The line a log call of [log_writer] makes for a received pair. *)
Definition log_call (nd : string * Document) : event :=
  EvLog (if in_start_stop (fst nd) then "INFO" else "DEBUG")
        "%s: %r" (fst nd) (snd nd).



(** The characters the ASCII form of a decimal literal is made of. *)
Definition literal_char (c : ascii) : bool :=
  Builtins.is_space c
  || match Builtins.digit c with Some _ => true | None => false end
  || Builtins.is_underscore c
  || Ascii.eqb c "+" || Ascii.eqb c "-".

Fixpoint all_chars (f : ascii -> bool) (s : string) : bool :=
  match s with
  | String c s' => f c && all_chars f s'
  | EmptyString => true
  end.

Fixpoint has_char (f : ascii -> bool) (s : string) : bool :=
  match s with
  | String c s' => f c || has_char f s'
  | EmptyString => false
  end.

(** An ASCII character other than DEL: the characters [int] takes as they
    are. *)
Definition ascii_char (c : ascii) : bool := (N_of_ascii c <? 127)%N.

(** An ASCII character that no decimal literal holds: a letter, a colon, a
    dot, a slash, ... *)
Definition stray_char (c : ascii) : bool :=
  ascii_char c && negb (literal_char c).

(** The text of U+0665 U+0665 U+0667 U+0667 (5577 in Arabic-Indic digits)
    and of 5577 followed by a no-break space, U+00A0. *)
Definition address_arabic_5577 : string :=
  String "217" (String "165" (String "217" (String "165"
    (String "217" (String "167" (String "217" (String "167" EmptyString))))))).

Definition address_5577_nbsp : string :=
  String "5" (String "5" (String "7" (String "7"
    (String "194" (String "160" EmptyString))))).

(** ** Sample worlds and command lines *)

(** The decimal scripts of Unicode 14.0, the database of CPython 3.11: the
    code point of the digit zero of each. *)
Definition unicode_14_decimal_zeros : list N :=
  [0x660; 0x6F0; 0x7C0; 0x966; 0x9E6; 0xA66; 0xAE6; 0xB66;
   0xBE6; 0xC66; 0xCE6; 0xD66; 0xDE6; 0xE50; 0xED0; 0xF20;
   0x1040; 0x1090; 0x17E0; 0x1810; 0x1946; 0x19D0; 0x1A80; 0x1A90;
   0x1B50; 0x1BB0; 0x1C40; 0x1C50; 0xA620; 0xA8D0; 0xA900; 0xA9D0;
   0xA9F0; 0xAA50; 0xABF0; 0xFF10; 0x104A0; 0x10D30; 0x11066; 0x110F0;
   0x11136; 0x111D0; 0x112F0; 0x11450; 0x114D0; 0x11650; 0x116C0; 0x11730;
   0x118E0; 0x11950; 0x11C50; 0x11D50; 0x11DA0; 0x16A60; 0x16AC0; 0x16B50;
   0x1D7CE; 0x1D7D8; 0x1D7E2; 0x1D7EC; 0x1D7F6; 0x1E140; 0x1E2F0; 0x1E950;
   0x1FBF0]%N.

(** A proxy that binds exactly the addresses it is asked for. *)
Definition bound (in_address out_address : value) : exn + Proxy.t :=
  inr {| Proxy.in_port := in_address; Proxy.out_port := out_address |}.

Definition sample_stream : list (string * Document) :=
  [("start", [("uid", PyStr "a1"); ("time", PyInt 1700000000)]);
   ("descriptor", [("run_start", PyStr "a1")]);
   ("event", [("seq_num", PyInt 1)]);
   ("stop", [("exit_status", PyStr "success")])].

(** The operator presses Ctrl+C while the proxy relays. *)
Definition world_interrupted : World :=
  {| int_max_str_digits := 4300;
     unicode_decimal_zeros := unicode_14_decimal_zeros;
     Proxy_new := bound;
     Proxy_start := fun _ => inl KeyboardInterrupt;
     received := sample_stream |}.

(** [bluesky-0MQ-proxy 5577 5578] *)
Definition args_legacy : Namespace :=
  {| in_address_opt := None; out_address_opt := None;
     in_port := Some 5577; out_port := Some 5578;
     verbose := None; logfile := None |}.

(** [bluesky-0MQ-proxy 5577] *)
Definition args_one_port : Namespace :=
  {| in_address_opt := None; out_address_opt := None;
     in_port := Some 5577; out_port := None;
     verbose := None; logfile := None |}.

(** [bluesky-0MQ-proxy 5577 5578 --out-address localhost:6000] *)
Definition args_mixed : Namespace :=
  {| in_address_opt := None; out_address_opt := Some "localhost:6000";
     in_port := Some 5577; out_port := Some 5578;
     verbose := None; logfile := None |}.

(** [bluesky-0MQ-proxy 5577 --in-address 5577] *)
Definition args_one_port_mixed : Namespace :=
  {| in_address_opt := Some "5577"; out_address_opt := None;
     in_port := Some 5577; out_port := None;
     verbose := None; logfile := None |}.

(** [bluesky-0MQ-proxy --in-address 5577 --out-address localhost:6000 -v] *)
Definition args_current (count : nat) : Namespace :=
  {| in_address_opt := Some "5577"; out_address_opt := Some "localhost:6000";
     in_port := None; out_port := None;
     verbose := Some count; logfile := None |}.

(** [bluesky-0MQ-proxy --in-address 5577 --out-address 5578 -v --logfile proxy.log] *)
Definition args_logfile : Namespace :=
  {| in_address_opt := Some "5577"; out_address_opt := Some "5578";
     in_port := None; out_port := None;
     verbose := Some 1%nat; logfile := Some "proxy.log" |}.
(** ** Further vocabulary for the properties of a run *)

(** A decimal digit character. *)
Definition is_digit (c : ascii) : bool :=
  match Builtins.digit c with Some _ => true | None => false end.

(** The number a string of decimal digits denotes, most significant digit
    first: each digit weighs ten to the number of digits after it. *)
Fixpoint positional_value (s : string) : Z :=
  match s with
  | String c s' =>
      match Builtins.digit c with Some d => d | None => 0 end
      * 10 ^ Z.of_nat (String.length s')
      + positional_value s'
  | EmptyString => 0
  end.

(** The calls of [Proxy(...)] and of [proxy.start()] in a trace. *)
Definition is_EvProxy (ev : event) : bool :=
  match ev with EvProxy _ _ => true | _ => false end.

Definition is_EvProxyStart (ev : event) : bool :=
  match ev with EvProxyStart => true | _ => false end.

(** The (name, document) pairs of the log calls of a trace, in order. *)
Fixpoint logged_pairs (t : list event) : list (string * Document) :=
  match t with
  | EvLog _ _ name doc :: t' => (name, doc) :: logged_pairs t'
  | _ :: t' => logged_pairs t'
  | [] => []
  end.

(** The proxy cannot bind: the constructor raises. *)
Definition world_bind_error : World :=
  {| int_max_str_digits := 4300;
     unicode_decimal_zeros := unicode_14_decimal_zeros;
     Proxy_new := fun _ _ =>
       inl (OtherException "zmq.error.ZMQError" "Address already in use");
     Proxy_start := fun _ => inl KeyboardInterrupt;
     received := [] |}.

(** The relay loop ends in an error of the transport. *)
Definition world_relay_error : World :=
  {| int_max_str_digits := 4300;
     unicode_decimal_zeros := unicode_14_decimal_zeros;
     Proxy_new := bound;
     Proxy_start := fun _ =>
       inl (OtherException "zmq.error.ContextTerminated" "Context was terminated");
     received := [] |}.

(** A proxy that picks a port of its own for an address left to [None]. *)
Definition world_ephemeral : World :=
  {| int_max_str_digits := 4300;
     unicode_decimal_zeros := unicode_14_decimal_zeros;
     Proxy_new := fun a b =>
       inr {| Proxy.in_port := match a with PyNone => PyInt 49152 | _ => a end;
              Proxy.out_port := match b with PyNone => PyInt 49153 | _ => b end |};
     Proxy_start := fun _ => inl KeyboardInterrupt;
     received := sample_stream |}.

(** [bluesky-0MQ-proxy -v] *)
Definition args_auto : Namespace :=
  {| in_address_opt := None; out_address_opt := None;
     in_port := None; out_port := None;
     verbose := Some 1%nat; logfile := None |}.

(** [bluesky-0MQ-proxy --in-address 5577 --out-address 5578] *)
Definition args_quiet : Namespace :=
  {| in_address_opt := Some "5577"; out_address_opt := Some "5578";
     in_port := None; out_port := None;
     verbose := None; logfile := None |}.

Example int_5577 : Builtins.int unicode_14_decimal_zeros 4300 (PyStr "5577") = inr 5577.
Proof. reflexivity. Qed.

Example int_blank_sign_underscore :
  Builtins.int unicode_14_decimal_zeros 4300 (PyStr " -1_000 ") = inr (-1000).
Proof. reflexivity. Qed.

Example int_host_port :
  Builtins.int unicode_14_decimal_zeros 4300 (PyStr "localhost:6000") = inl Builtins.int_ValueError.
Proof. reflexivity. Qed.

Example int_bad_literals :
  map (fun s => Builtins.of_string unicode_14_decimal_zeros 4300 s)
      ["_1"; "1_"; "1__0"; "+"; "- 5"; "+-5"; "0x10"; "5.0"; "5 5"]
  = [None; None; None; None; None; None; None; None; None].
Proof. reflexivity. Qed.

Example int_leading_zeros :
  map (fun s => Builtins.of_string unicode_14_decimal_zeros 4300 s) ["007"; "0_7"; "+5"]
  = [Some 7; Some 7; Some 5].
Proof. reflexivity. Qed.

Example int_other_scripts :
  map (Builtins.int unicode_14_decimal_zeros 4300)
      [PyStr address_arabic_5577;
       PyStr address_5577_nbsp;
       (* U+0085, then 5 *)
       PyStr (String "194" (String "133" "5"));
       (* a minus sign, then U+0663 *)
       PyStr (String "-" (String "217" (String "163" EmptyString)));
       (* U+FF15, a fullwidth 5 *)
       PyStr (String "239" (String "188" (String "149" EmptyString)))]
  = [inr 5577; inr 5577; inr 5; inr (-3); inr 5].
Proof. reflexivity. Qed.

Example int_refused_text :
  map (Builtins.int unicode_14_decimal_zeros 4300)
      [(* 5, then DEL *)
       PyStr (String "5" (String "127" EmptyString));
       (* 5, then U+00E9 *)
       PyStr (String "5" (String "195" (String "169" EmptyString)));
       (* 5, then a byte that is not UTF-8 *)
       PyStr (String "5" (String "160" EmptyString));
       PyNone]
  = [inl Builtins.int_ValueError; inl Builtins.int_ValueError;
     inl Builtins.int_ValueError; inl Builtins.int_TypeError].
Proof. reflexivity. Qed.

Example main_legacy_run :
  main world_interrupted args_legacy
  = ([EvWarn MSG_DEPRECATED_PORTS "FutureWarning" 1;
      EvPrint "Connecting..." [];
      EvProxy (PyInt 5577) (PyInt 5578);
      EvPrint "Receiving on address %s; publishing to address %s."
              [PyInt 5577; PyInt 5578];
      EvPrint "Use Ctrl+C to exit." [];
      EvProxyStart;
      EvPrint "Interrupted. Exiting..." []],
     Ok tt).
Proof. reflexivity. Qed.

Example main_logfile_run :
  main world_interrupted args_logfile
  = ([EvPrint "Connecting..." [];
      EvProxy (PyInt 5577) (PyInt 5578);
      EvPrint "Receiving on address %s; publishing to address %s."
              [PyInt 5577; PyInt 5578];
      EvConfigLogging "INFO" (Some "proxy.log");
      EvThreadStart (target_start_dispatcher (PyInt 5578) None) true;
      EvPrint "Use Ctrl+C to exit." [];
      EvProxyStart;
      EvPrint "Interrupted. Exiting..." []],
     Ok tt).
Proof. reflexivity. Qed.

Example dispatcher_thread_run :
  trace (run_target world_interrupted (target_start_dispatcher (PyInt 5578) None))
  = EvRemoteDispatcher (PyInt 5578) :: EvDispatcherStart
    :: map log_call sample_stream.
Proof. reflexivity. Qed.

(** * Properties *)

(** ** How [main] runs, by stage *)

Lemma main_resolution_fails (w : World) (args : Namespace)
    (t : list event) (e : exn) :
  resolve_addresses args = (t, Raise e) -> main w args = (t, Raise e).
Proof.
  intros Hres. unfold main. rewrite Hres. reflexivity.
Qed.

Lemma main_bind_fails (w : World) (args : Namespace)
    (t : list event) (a b : value) (e : exn) :
  resolve_addresses args = (t, Ok (a, b)) ->
  Proxy_new w (coerce w a) (coerce w b) = inl e ->
  main w args
  = ((t ++ [EvPrint "Connecting..." []; EvProxy (coerce w a) (coerce w b)])%list,
     Raise e).
Proof.
  intros Hres Hnew. unfold main. rewrite Hres. cbn [bind emit].
  rewrite Hnew. reflexivity.
Qed.

Lemma main_run (w : World) (args : Namespace)
    (t : list event) (a b : value) (p : Proxy.t) :
  resolve_addresses args = (t, Ok (a, b)) ->
  Proxy_new w (coerce w a) (coerce w b) = inr p ->
  main w args
  = ((t ++ [EvPrint "Connecting..." [];
            EvProxy (coerce w a) (coerce w b);
            EvPrint "Receiving on address %s; publishing to address %s."
                    [Proxy.in_port p; Proxy.out_port p]]
        ++ verbose_events args p
        ++ [EvPrint "Use Ctrl+C to exit." []]
        ++ final_events (Proxy_start w p))%list,
     final_outcome (Proxy_start w p)).
Proof.
  intros Hres Hnew. unfold main, verbose_events. rewrite Hres.
  cbn [bind emit]. rewrite Hnew. cbn [call bind ret app].
  destruct (Proxy_start w p) as [[]|[]];
    destruct (verbose args) as [[|n]|];
    destruct (truthy_str (logfile args));
    reflexivity.
Qed.

(** The resolution either raises before any effect, or returns the pair
    with at most the deprecation warning as its only effect. *)
Lemma resolve_addresses_trace (args : Namespace) :
  trace (resolve_addresses args) = []
  \/ trace (resolve_addresses args)
     = [EvWarn MSG_DEPRECATED_PORTS "FutureWarning" 1].
Proof.
  unfold resolve_addresses.
  destruct (in_port args), (out_port args),
    (in_address_opt args), (out_address_opt args); cbn; auto.
Qed.

(** ** The dispatcher thread *)

Lemma log_writer_call (name : string) (doc : Document) :
  log_writer name doc = ([log_call (name, doc)], Ok tt).
Proof.
  unfold log_writer, log_call, emit. cbn [fst snd].
  destruct (in_start_stop name); reflexivity.
Qed.

Lemma loop_log_writer (d : RemoteDispatcher.t)
    (stream : list (string * Document)) :
  RemoteDispatcher.subscribers d = [log_writer] ->
  RemoteDispatcher.loop d stream = (map log_call stream, Ok tt).
Proof.
  intros Hsub. induction stream as [|[name doc] stream IH].
  - reflexivity.
  - cbn [RemoteDispatcher.loop map]. rewrite Hsub.
    cbn [RemoteDispatcher.process]. rewrite log_writer_call, IH.
    reflexivity.
Qed.

Lemma start_dispatcher_run (w : World) (out_address : value) :
  start_dispatcher w out_address None
  = (EvRemoteDispatcher out_address :: EvDispatcherStart
       :: map log_call (received w),
     Ok tt).
Proof.
  unfold start_dispatcher, RemoteDispatcher.new, RemoteDispatcher.start.
  cbn [bind emit ret is_not_None app].
  rewrite loop_log_writer by reflexivity. reflexivity.
Qed.

Lemma emitted_INFO (name : string) :
  logging.emitted "INFO" (if in_start_stop name then "INFO" else "DEBUG")
  = in_start_stop name.
Proof. destruct (in_start_stop name); reflexivity. Qed.

Lemma emitted_DEBUG (name : string) :
  logging.emitted "DEBUG" (if in_start_stop name then "INFO" else "DEBUG")
  = true.
Proof. destruct (in_start_stop name); reflexivity. Qed.

Lemma output_INFO (stream : list (string * Document)) :
  logging.output "INFO" (map log_call stream)
  = map log_call (filter (fun nd => in_start_stop (fst nd)) stream).
Proof.
  unfold logging.output.
  induction stream as [|[name doc] stream IH]; [reflexivity|].
  cbn [map filter fst]. rewrite IH.
  change (log_call (name, doc))
    with (EvLog (if in_start_stop name then "INFO" else "DEBUG")
                "%s: %r" name doc).
  cbv beta iota. rewrite emitted_INFO.
  destruct (in_start_stop name) eqn:E; cbn [map]; unfold log_call;
    cbn [fst snd]; rewrite ?E; reflexivity.
Qed.

Lemma output_DEBUG (stream : list (string * Document)) :
  logging.output "DEBUG" (map log_call stream) = map log_call stream.
Proof.
  unfold logging.output.
  induction stream as [|[name doc] stream IH]; [reflexivity|].
  cbn [map filter]. rewrite IH.
  change (log_call (name, doc))
    with (EvLog (if in_start_stop name then "INFO" else "DEBUG")
                "%s: %r" name doc).
  cbv beta iota. rewrite emitted_DEBUG. reflexivity.
Qed.

Lemma in_start_stop_spec (name : string) :
  in_start_stop name = true <-> name = "start" \/ name = "stop".
Proof.
  unfold in_start_stop. cbn [existsb].
  rewrite !orb_true_iff, !String.eqb_eq. intuition discriminate.
Qed.

(** ** Address resolution (lines 63-94) *)

Lemma resolve_addresses_one_port (args : Namespace) :
  xorb (is_not_None (in_port args)) (is_not_None (out_port args)) = true ->
  resolve_addresses args = ([], Raise (ValueError MSG_BOTH_PORTS)).
Proof.
  unfold resolve_addresses.
  destruct (in_port args), (out_port args); cbn; intros H;
    solve [discriminate H | reflexivity].
Qed.

(** C1: when exactly one of the positional ports [in_port] and [out_port] is
    given, the resolution raises the [ValueError] that asks for both ports
    together; it returns no pair, and [main] ends with that error before any
    other effect. *)
Theorem incomplete_legacy_pair_fails (w : World) (args : Namespace) :
  xorb (is_not_None (in_port args)) (is_not_None (out_port args)) = true ->
  resolve_addresses args = ([], Raise (ValueError MSG_BOTH_PORTS)) /\
  main w args = ([], Raise (ValueError MSG_BOTH_PORTS)).
Proof.
  intros H. pose proof (resolve_addresses_one_port args H) as Hres.
  split; [exact Hres | exact (main_resolution_fails w args _ _ Hres)].
Qed.

Lemma incomplete_legacy_pair_fails_witness :
  xorb (is_not_None (in_port args_one_port))
       (is_not_None (out_port args_one_port)) = true /\
  resolve_addresses args_one_port = ([], Raise (ValueError MSG_BOTH_PORTS)) /\
  main world_interrupted args_one_port
  = ([], Raise (ValueError MSG_BOTH_PORTS)).
Proof.
  split; [reflexivity|].
  apply (incomplete_legacy_pair_fails world_interrupted args_one_port).
  reflexivity.
Defined.

(** C2: when both positional ports are given and at least one of
    [--in-address], [--out-address] is given too, the resolution raises the
    [ValueError] that refuses to mix the two schemes, and so does [main],
    before any other effect. *)
Theorem mixed_schemes_fail (w : World) (args : Namespace) :
  is_not_None (in_port args) && is_not_None (out_port args) = true ->
  is_not_None (in_address_opt args) || is_not_None (out_address_opt args) = true ->
  resolve_addresses args = ([], Raise (ValueError MSG_MIXED)) /\
  main w args = ([], Raise (ValueError MSG_MIXED)).
Proof.
  intros Hports Hopts.
  assert (Hres : resolve_addresses args = ([], Raise (ValueError MSG_MIXED))).
  { unfold resolve_addresses.
    destruct (in_port args), (out_port args); try discriminate Hports.
    cbn in *. rewrite Hopts. reflexivity. }
  split; [exact Hres | exact (main_resolution_fails w args _ _ Hres)].
Qed.

Lemma mixed_schemes_fail_witness :
  (is_not_None (in_port args_mixed) && is_not_None (out_port args_mixed) = true /\
   is_not_None (in_address_opt args_mixed)
   || is_not_None (out_address_opt args_mixed) = true) /\
  resolve_addresses args_mixed = ([], Raise (ValueError MSG_MIXED)) /\
  main world_interrupted args_mixed = ([], Raise (ValueError MSG_MIXED)).
Proof.
  split; [split; reflexivity|].
  apply (mixed_schemes_fail world_interrupted args_mixed); reflexivity.
Defined.

(** C3: when both positional ports are given and neither [--in-address] nor
    [--out-address] is, the resolution succeeds with exactly the two ports
    as the pair, and its one effect is the [FutureWarning] about the
    deprecated positional arguments; the warning does not stop [main],
    which goes on to construct the proxy from the two ports. *)
Theorem legacy_pair_resolves (w : World) (args : Namespace) (a b : Z) :
  in_port args = Some a ->
  out_port args = Some b ->
  in_address_opt args = None ->
  out_address_opt args = None ->
  resolve_addresses args
  = ([EvWarn MSG_DEPRECATED_PORTS "FutureWarning" 1], Ok (PyInt a, PyInt b)) /\
  exists t r,
    main w args
    = (EvWarn MSG_DEPRECATED_PORTS "FutureWarning" 1
         :: EvPrint "Connecting..." []
         :: EvProxy (PyInt a) (PyInt b) :: t,
       r).
Proof.
  intros Hin Hout Hino Houto.
  assert (Hres : resolve_addresses args
                 = ([EvWarn MSG_DEPRECATED_PORTS "FutureWarning" 1],
                    Ok (PyInt a, PyInt b))).
  { unfold resolve_addresses. rewrite Hin, Hout, Hino, Houto. reflexivity. }
  split; [exact Hres|].
  destruct (Proxy_new w (coerce w (PyInt a)) (coerce w (PyInt b)))
    as [e|p] eqn:Hnew.
  - rewrite (main_bind_fails w args _ _ _ e Hres Hnew).
    eexists; eexists; reflexivity.
  - rewrite (main_run w args _ _ _ p Hres Hnew).
    eexists; eexists; reflexivity.
Qed.

Lemma legacy_pair_resolves_witness :
  resolve_addresses args_legacy
  = ([EvWarn MSG_DEPRECATED_PORTS "FutureWarning" 1],
     Ok (PyInt 5577, PyInt 5578)) /\
  exists t r,
    main world_interrupted args_legacy
    = (EvWarn MSG_DEPRECATED_PORTS "FutureWarning" 1
         :: EvPrint "Connecting..." []
         :: EvProxy (PyInt 5577) (PyInt 5578) :: t,
       r).
Proof.
  apply (legacy_pair_resolves world_interrupted args_legacy 5577 5578);
    reflexivity.
Defined.

(** C4: when neither positional port is given, the resolution returns the
    values of [--in-address] and [--out-address] as they are (a string, or
    [None] when the option is missing), with no warning and no error. *)
Theorem current_pair_unchanged (args : Namespace) :
  in_port args = None ->
  out_port args = None ->
  resolve_addresses args
  = ([], Ok (of_str (in_address_opt args), of_str (out_address_opt args))).
Proof.
  intros Hin Hout. unfold resolve_addresses. rewrite Hin, Hout. reflexivity.
Qed.

Lemma current_pair_unchanged_witness :
  resolve_addresses (args_current 1)
  = ([], Ok (PyStr "5577", PyStr "localhost:6000")).
Proof.
  apply (current_pair_unchanged (args_current 1)); reflexivity.
Defined.

(** C10: when exactly one positional port is given together with one of
    [--in-address], [--out-address], the error is the one about the
    incomplete pair of ports and not the one about mixed schemes: the first
    check of line 70 raises before line 77 is reached. *)
Theorem incomplete_pair_before_mixed (w : World) (args : Namespace) :
  xorb (is_not_None (in_port args)) (is_not_None (out_port args)) = true ->
  is_not_None (in_address_opt args) || is_not_None (out_address_opt args) = true ->
  outcome (resolve_addresses args) = Raise (ValueError MSG_BOTH_PORTS) /\
  outcome (resolve_addresses args) <> Raise (ValueError MSG_MIXED) /\
  outcome (main w args) = Raise (ValueError MSG_BOTH_PORTS).
Proof.
  intros Hports _.
  pose proof (resolve_addresses_one_port args Hports) as Hres.
  rewrite (main_resolution_fails w args _ _ Hres), Hres. cbn [outcome snd].
  repeat split. intros H. discriminate H.
Qed.

Lemma incomplete_pair_before_mixed_witness :
  outcome (resolve_addresses args_one_port_mixed)
  = Raise (ValueError MSG_BOTH_PORTS) /\
  outcome (resolve_addresses args_one_port_mixed)
  <> Raise (ValueError MSG_MIXED) /\
  outcome (main world_interrupted args_one_port_mixed)
  = Raise (ValueError MSG_BOTH_PORTS).
Proof.
  apply (incomplete_pair_before_mixed world_interrupted args_one_port_mixed);
    reflexivity.
Defined.

(** ** Coercion of the resolved addresses (lines 97-104) *)

Lemma skip_spaces_literal (s : string) :
  all_chars literal_char (Builtins.skip_spaces s) = true ->
  all_chars literal_char s = true.
Proof.
  induction s as [|c s IH]; [reflexivity|].
  cbn [Builtins.skip_spaces]. destruct (Builtins.is_space c) eqn:E.
  - intros H. cbn [all_chars]. rewrite (IH H), andb_true_r.
    unfold literal_char. rewrite E. reflexivity.
  - trivial.
Qed.

Lemma scan_literal (s : string) :
  forall (prev : bool) (acc : Z) (digits : nat) n d rest,
    Builtins.scan s prev acc digits = Some (n, d, rest) ->
    all_chars literal_char rest = true ->
    all_chars literal_char s = true.
Proof.
  induction s as [|c s IH]; intros prev acc digits n d rest Hscan Hrest.
  - reflexivity.
  - cbn [Builtins.scan] in Hscan. cbn [all_chars]. unfold literal_char at 1.
    destruct (Builtins.digit c) as [v|] eqn:Ed.
    + rewrite (IH _ _ _ _ _ _ Hscan Hrest).
      rewrite orb_true_r. reflexivity.
    + destruct (Builtins.is_underscore c) eqn:Eu.
      * destruct prev; [discriminate Hscan|].
        rewrite (IH _ _ _ _ _ _ Hscan Hrest).
        rewrite !orb_true_r. reflexivity.
      * destruct prev; [discriminate Hscan|].
        injection Hscan as _ _ Hr. subst rest. cbn [all_chars] in Hrest.
        unfold literal_char at 1 in Hrest. rewrite Ed, Eu in Hrest.
        exact Hrest.
Qed.

(** A string that [int] accepts holds nothing but blanks, digits,
    underscores and signs. *)
(** A string that [PyLong_FromString] accepts holds nothing but blanks,
    digits, underscores and signs. *)
Lemma parse_literal (limit : nat) (s : string) (n : Z) :
  Builtins.parse limit s = Some n -> all_chars literal_char s = true.
Proof.
  unfold Builtins.parse. intros H. apply skip_spaces_literal.
  assert (Hbody : forall sign body,
             match body with
             | String c _ =>
                 match Builtins.digit c with
                 | Some _ =>
                     match Builtins.scan body false 0 0 with
                     | Some (m, digits, rest) =>
                         match Builtins.skip_spaces rest with
                         | EmptyString =>
                             if Builtins.within_limit limit digits
                             then Some (sign * m) else None
                         | String _ _ => None
                         end
                     | None => None
                     end
                 | None => None
                 end
             | EmptyString => None
             end = Some n ->
             all_chars literal_char body = true).
  { intros sign body Hb. destruct body as [|c body]; [discriminate Hb|].
    destruct (Builtins.digit c); [|discriminate Hb].
    destruct (Builtins.scan (String c body) false 0 0)
      as [[[m digits] rest]|] eqn:Hscan; [|discriminate Hb].
    destruct (Builtins.skip_spaces rest) eqn:Hskip; [|discriminate Hb].
    apply (scan_literal _ _ _ _ _ _ _ Hscan).
    apply skip_spaces_literal. rewrite Hskip. reflexivity. }
  destruct (Builtins.skip_spaces s) as [|c body]; [discriminate H|].
  destruct (Ascii.eqb c "+") eqn:Eplus.
  { apply Ascii.eqb_eq in Eplus. subst c. cbn [all_chars].
    rewrite (Hbody _ _ H). reflexivity. }
  destruct (Ascii.eqb c "-") eqn:Eminus.
  { apply Ascii.eqb_eq in Eminus. subst c. cbn [all_chars].
    rewrite (Hbody _ _ H). reflexivity. }
  apply (Hbody 1 (String c body)).
  destruct c as [[] [] [] [] [] [] [] []];
    try discriminate Eplus; try discriminate Eminus; exact H.
Qed.

Lemma to_ascii_below_127 (zeros : list N) (c : ascii) :
  ascii_char c = true -> Builtins.to_ascii zeros (N_of_ascii c) = Some c.
Proof.
  unfold ascii_char, Builtins.to_ascii. intros H. rewrite H.
  rewrite ascii_N_embedding. reflexivity.
Qed.

Lemma ascii_char_first_byte (c : ascii) :
  ascii_char c = true -> (N_of_ascii c <? 0x80)%N = true.
Proof.
  unfold ascii_char. rewrite !N.ltb_lt. lia.
Qed.

Lemma not_first_byte (c : ascii) :
  (N_of_ascii c <? 0x80)%N = false -> ascii_char c = false.
Proof.
  unfold ascii_char. rewrite !N.ltb_ge. lia.
Qed.

Lemma continuation_not_ascii (c : ascii) :
  Builtins.is_continuation (N_of_ascii c) = true -> ascii_char c = false.
Proof.
  unfold Builtins.is_continuation, ascii_char. intros H.
  apply andb_prop in H. destruct H as [H _].
  apply N.leb_le in H. apply N.ltb_ge. lia.
Qed.

(** An ASCII character of the text is still there, as it is, in the ASCII
    form [int] parses. *)
Lemma ascii_form_keeps (zeros : list N) (f : ascii -> bool) :
  (forall c, f c = true -> ascii_char c = true) ->
  forall (s : string) (need : nat) (cp lo : N) (cps : list N) (a : string),
    Builtins.utf8_decode_from s need cp lo = Some cps ->
    Builtins.transform zeros cps = Some a ->
    has_char f s = true -> has_char f a = true.
Proof.
  intros Hf. induction s as [|b s IH]; intros need cp lo cps a Hdec Htr Hhas.
  - discriminate Hhas.
  - cbn [has_char] in Hhas. cbn [Builtins.utf8_decode_from] in Hdec.
    destruct need as [|k].
    + destruct (N_of_ascii b <? 0x80)%N eqn:Eb.
      * destruct (Builtins.utf8_decode_from s 0 0%N 0%N) as [cps'|] eqn:Hrec;
          [|discriminate Hdec].
        injection Hdec as <-. cbn [Builtins.transform] in Htr.
        destruct (Builtins.to_ascii zeros (N_of_ascii b)) as [c0|] eqn:Hc0;
          [|discriminate Htr].
        destruct (Builtins.transform zeros cps') as [a'|] eqn:Ha';
          [|discriminate Htr].
        injection Htr as <-. cbn [has_char].
        destruct (f b) eqn:Efb.
        -- rewrite (to_ascii_below_127 zeros b (Hf b Efb)) in Hc0.
           injection Hc0 as <-. rewrite Efb. reflexivity.
        -- cbn [orb] in Hhas. rewrite (IH _ _ _ _ _ Hrec Ha' Hhas).
           apply orb_true_r.
      * assert (Efb : f b = false).
        { destruct (f b) eqn:Efb; [|reflexivity].
          pose proof (Hf b Efb) as Hx.
          rewrite (not_first_byte b Eb) in Hx. discriminate Hx. }
        rewrite Efb in Hhas. cbn [orb] in Hhas.
        destruct (N_of_ascii b <? 0xC0)%N; [discriminate Hdec|].
        destruct (N_of_ascii b <? 0xE0)%N; [exact (IH _ _ _ _ _ Hdec Htr Hhas)|].
        destruct (N_of_ascii b <? 0xF0)%N; [exact (IH _ _ _ _ _ Hdec Htr Hhas)|].
        destruct (N_of_ascii b <? 0xF8)%N; [exact (IH _ _ _ _ _ Hdec Htr Hhas)|].
        discriminate Hdec.
    + destruct (Builtins.is_continuation (N_of_ascii b)) eqn:Ec;
        [|discriminate Hdec].
      assert (Efb : f b = false).
      { destruct (f b) eqn:Efb; [|reflexivity].
        pose proof (Hf b Efb) as Hx.
        rewrite (continuation_not_ascii b Ec) in Hx. discriminate Hx. }
      rewrite Efb in Hhas. cbn [orb] in Hhas.
      destruct k as [|k].
      * destruct (Builtins.scalar_value (cp * 64 + (N_of_ascii b - 0x80)) lo);
          [|discriminate Hdec].
        destruct (Builtins.utf8_decode_from s 0 0%N 0%N) as [cps'|] eqn:Hrec;
          [|discriminate Hdec].
        injection Hdec as <-. cbn [Builtins.transform] in Htr.
        destruct (Builtins.to_ascii zeros (cp * 64 + (N_of_ascii b - 0x80)))
          as [c0|]; [|discriminate Htr].
        destruct (Builtins.transform zeros cps') as [a'|] eqn:Ha';
          [|discriminate Htr].
        injection Htr as <-. cbn [has_char].
        rewrite (IH _ _ _ _ _ Hrec Ha' Hhas). apply orb_true_r.
      * exact (IH _ _ _ _ _ Hdec Htr Hhas).
Qed.

Lemma literal_has_no_stray (a : string) :
  all_chars literal_char a = true -> has_char stray_char a = false.
Proof.
  induction a as [|c a IH]; [reflexivity|].
  cbn [all_chars has_char]. intros H. apply andb_prop in H.
  destruct H as [Hc Ha]. rewrite (IH Ha). unfold stray_char. rewrite Hc.
  rewrite andb_false_r. reflexivity.
Qed.

(** A text with a stray ASCII character is no integer for [int]. *)
Lemma of_string_stray (zeros : list N) (limit : nat) (s : string) :
  has_char stray_char s = true -> Builtins.of_string zeros limit s = None.
Proof.
  intros Hs. unfold Builtins.of_string, Builtins.utf8_decode.
  destruct (Builtins.utf8_decode_from s 0 0%N 0%N) as [cps|] eqn:Hdec;
    [|reflexivity].
  destruct (Builtins.transform zeros cps) as [a|] eqn:Htr; [|reflexivity].
  destruct (Builtins.parse limit a) as [n|] eqn:Hp; [|reflexivity].
  assert (Ha : has_char stray_char a = true).
  { apply (ascii_form_keeps zeros stray_char) with (s := s) (need := 0%nat)
      (cp := 0%N) (lo := 0%N) (cps := cps); try assumption.
    intros c Hc. unfold stray_char in Hc. apply andb_prop in Hc. tauto. }
  rewrite (literal_has_no_stray a (parse_literal _ _ _ Hp)) in Ha.
  discriminate Ha.
Qed.

(** On ASCII text, [int] is the parser of literals. *)
Lemma ascii_form_of_ascii (zeros : list N) (s : string) :
  all_chars ascii_char s = true ->
  exists cps,
    Builtins.utf8_decode_from s 0 0%N 0%N = Some cps /\
    Builtins.transform zeros cps = Some s.
Proof.
  induction s as [|c s IH]; intros H.
  - exists []. split; reflexivity.
  - cbn [all_chars] in H. apply andb_prop in H. destruct H as [Hc Hs].
    destruct (IH Hs) as (cps & Hdec & Htr).
    exists (N_of_ascii c :: cps). cbn [Builtins.utf8_decode_from].
    rewrite (ascii_char_first_byte c Hc), Hdec. split; [reflexivity|].
    cbn [Builtins.transform]. rewrite (to_ascii_below_127 zeros c Hc), Htr.
    reflexivity.
Qed.

Lemma of_string_ascii (zeros : list N) (limit : nat) (s : string) :
  all_chars ascii_char s = true ->
  Builtins.of_string zeros limit s = Builtins.parse limit s.
Proof.
  intros H. destruct (ascii_form_of_ascii zeros s H) as (cps & Hdec & Htr).
  unfold Builtins.of_string, Builtins.utf8_decode. rewrite Hdec, Htr.
  reflexivity.
Qed.

(** C5: the coercion of a resolved address.  A string that [int] parses
    (ASCII or not: digits and blanks of other scripts count) becomes that
    integer; a string that [int] refuses stays the same string, and so does
    every string with an ASCII character that no decimal literal holds (a
    letter of a host name, a colon, a dot); [None] stays [None]; an integer
    stays itself.  [main] constructs the proxy from the coerced values of
    the resolved pair. *)
Theorem coerce_resolved_address (w : World) :
  (forall s n,
      Builtins.of_string (unicode_decimal_zeros w) (int_max_str_digits w) s
      = Some n ->
      coerce w (PyStr s) = PyInt n) /\
  (forall s,
      Builtins.of_string (unicode_decimal_zeros w) (int_max_str_digits w) s
      = None ->
      coerce w (PyStr s) = PyStr s) /\
  (forall s, has_char stray_char s = true -> coerce w (PyStr s) = PyStr s) /\
  coerce w PyNone = PyNone /\
  (forall n, coerce w (PyInt n) = PyInt n) /\
  (forall args t a b,
      resolve_addresses args = (t, Ok (a, b)) ->
      exists t' r,
        main w args
        = ((t ++ EvPrint "Connecting..." []
              :: EvProxy (coerce w a) (coerce w b) :: t')%list, r)).
Proof.
  split; [|split; [|split; [|split; [|split]]]].
  - intros s n H. unfold coerce. cbn [Builtins.int]. rewrite H. reflexivity.
  - intros s H. unfold coerce. cbn [Builtins.int]. rewrite H. reflexivity.
  - intros s H. unfold coerce. cbn [Builtins.int].
    rewrite (of_string_stray _ _ s H). reflexivity.
  - reflexivity.
  - intros n. reflexivity.
  - intros args t a b Hres.
    destruct (Proxy_new w (coerce w a) (coerce w b)) as [e|p] eqn:Hnew.
    + rewrite (main_bind_fails w args _ _ _ e Hres Hnew).
      exists [], (Raise e). reflexivity.
    + rewrite (main_run w args _ _ _ p Hres Hnew).
      eexists; eexists; reflexivity.
Qed.

Lemma coerce_resolved_address_witness :
  coerce world_interrupted (PyStr "5577") = PyInt 5577 /\
  coerce world_interrupted (PyStr address_arabic_5577) = PyInt 5577 /\
  coerce world_interrupted (PyStr address_5577_nbsp) = PyInt 5577 /\
  coerce world_interrupted (PyStr "5577/tcp") = PyStr "5577/tcp" /\
  coerce world_interrupted (PyStr "localhost:6000") = PyStr "localhost:6000" /\
  exists t' r,
    main world_interrupted (args_current 1)
    = (EvPrint "Connecting..." []
         :: EvProxy (PyInt 5577) (PyStr "localhost:6000") :: t', r).
Proof.
  destruct (coerce_resolved_address world_interrupted)
    as (Hint & Hstr & Hstray & _ & _ & Hmain).
  split; [apply Hint; reflexivity|].
  split; [apply Hint; reflexivity|].
  split; [apply Hint; reflexivity|].
  split; [apply Hstr; reflexivity|].
  split; [apply Hstray; reflexivity|].
  apply (Hmain (args_current 1) [] (PyStr "5577") (PyStr "localhost:6000")).
  reflexivity.
Defined.

(** ** Logging (lines 26-36 and 108-118) *)

Lemma log_call_start_stop (stream : list (string * Document)) :
  map log_call (filter (fun nd => in_start_stop (fst nd)) stream)
  = map (fun nd => EvLog "INFO" "%s: %r" (fst nd) (snd nd))
        (filter (fun nd => in_start_stop (fst nd)) stream).
Proof.
  induction stream as [|[name doc] stream IH]; [reflexivity|].
  cbn [filter fst]. destruct (in_start_stop name) eqn:E; [|exact IH].
  cbn [map]. rewrite IH. unfold log_call. cbn [fst snd]. rewrite E.
  reflexivity.
Qed.

Lemma verbose_events_in_run (w : World) (args : Namespace)
    (t : list event) (a b : value) (p : Proxy.t) (ev : event) :
  resolve_addresses args = (t, Ok (a, b)) ->
  Proxy_new w (coerce w a) (coerce w b) = inr p ->
  In ev (verbose_events args p) -> In ev (trace (main w args)).
Proof.
  intros Hres Hnew Hin. rewrite (main_run w args _ _ _ p Hres Hnew).
  cbn [trace fst]. apply in_or_app. right.
  apply (in_or_app (_ :: _ :: _ :: nil)). right.
  apply in_or_app. left. exact Hin.
Qed.

(** C6: in a run that gets as far as line 108 (the addresses resolve and the
    proxy is constructed), a verbosity count of 1 or 2 configures logging at
    level INFO, and of what the dispatcher thread receives only the start
    and stop documents produce a line; a count of 3 or more configures level
    DEBUG, and every document received produces a line. *)
Theorem verbosity_levels (w : World) (args : Namespace)
    (t : list event) (a b : value) (p : Proxy.t) (n : nat) :
  resolve_addresses args = (t, Ok (a, b)) ->
  Proxy_new w (coerce w a) (coerce w b) = inr p ->
  verbose args = Some n ->
  let file := if truthy_str (logfile args) then logfile args else None in
  let thread := target_start_dispatcher (Proxy.out_port p) None in
  (n = 1%nat \/ n = 2%nat ->
     In (EvConfigLogging "INFO" file) (trace (main w args)) /\
     In (EvThreadStart thread true) (trace (main w args)) /\
     logging.output "INFO" (trace (run_target w thread))
     = map (fun nd => EvLog "INFO" "%s: %r" (fst nd) (snd nd))
           (filter (fun nd => in_start_stop (fst nd)) (received w))) /\
  ((3 <= n)%nat ->
     In (EvConfigLogging "DEBUG" file) (trace (main w args)) /\
     In (EvThreadStart thread true) (trace (main w args)) /\
     logging.output "DEBUG" (trace (run_target w thread))
     = map log_call (received w)).
Proof.
  intros Hres Hnew Hv file thread.
  assert (Hev : forall m, n = S m ->
            In (EvConfigLogging (level_of n) file) (trace (main w args)) /\
            In (EvThreadStart thread true) (trace (main w args))).
  { intros m Hm. subst n.
    split; apply (verbose_events_in_run w args t a b p _ Hres Hnew);
      unfold verbose_events; rewrite Hv; cbn [In]; auto. }
  assert (Hrun : trace (run_target w thread)
                 = EvRemoteDispatcher (Proxy.out_port p) :: EvDispatcherStart
                     :: map log_call (received w)).
  { unfold thread, run_target. rewrite start_dispatcher_run. reflexivity. }
  split.
  - intros Hn.
    assert (Hlevel : level_of n = "INFO") by (destruct Hn; subst n; reflexivity).
    destruct (Hev (pred n)) as [Hc Ht]; [destruct Hn; subst n; reflexivity|].
    rewrite Hlevel in Hc. repeat split; [exact Hc | exact Ht |].
    rewrite Hrun.
    change (logging.output "INFO"
              (EvRemoteDispatcher (Proxy.out_port p) :: EvDispatcherStart
                 :: map log_call (received w)))
      with (logging.output "INFO" (map log_call (received w))).
    rewrite output_INFO. apply log_call_start_stop.
  - intros Hn.
    destruct n as [|[|[|m]]]; try lia.
    destruct (Hev (S (S m)) eq_refl) as [Hc Ht].
    repeat split; [exact Hc | exact Ht |].
    rewrite Hrun.
    change (logging.output "DEBUG"
              (EvRemoteDispatcher (Proxy.out_port p) :: EvDispatcherStart
                 :: map log_call (received w)))
      with (logging.output "DEBUG" (map log_call (received w))).
    apply output_DEBUG.
Qed.

Lemma verbosity_levels_witness :
  (In (EvConfigLogging "INFO" None)
      (trace (main world_interrupted (args_current 2))) /\
   In (EvThreadStart (target_start_dispatcher (PyStr "localhost:6000") None) true)
      (trace (main world_interrupted (args_current 2))) /\
   logging.output "INFO"
     (trace (run_target world_interrupted
               (target_start_dispatcher (PyStr "localhost:6000") None)))
   = [EvLog "INFO" "%s: %r" "start"
            [("uid", PyStr "a1"); ("time", PyInt 1700000000)];
      EvLog "INFO" "%s: %r" "stop" [("exit_status", PyStr "success")]]) /\
  (In (EvConfigLogging "DEBUG" None)
      (trace (main world_interrupted (args_current 3))) /\
   In (EvThreadStart (target_start_dispatcher (PyStr "localhost:6000") None) true)
      (trace (main world_interrupted (args_current 3))) /\
   logging.output "DEBUG"
     (trace (run_target world_interrupted
               (target_start_dispatcher (PyStr "localhost:6000") None)))
   = map log_call sample_stream).
Proof.
  split.
  - apply (proj1 (verbosity_levels world_interrupted (args_current 2) []
                    (PyStr "5577") (PyStr "localhost:6000")
                    {| Proxy.in_port := PyInt 5577;
                       Proxy.out_port := PyStr "localhost:6000" |} 2
                    eq_refl eq_refl eq_refl)).
    right. reflexivity.
  - apply (proj2 (verbosity_levels world_interrupted (args_current 3) []
                    (PyStr "5577") (PyStr "localhost:6000")
                    {| Proxy.in_port := PyInt 5577;
                       Proxy.out_port := PyStr "localhost:6000" |} 3
                    eq_refl eq_refl eq_refl)).
    lia.
Defined.

(** C7: for every name and document, [log_writer] makes one log call, with
    the name and the whole document as its arguments; the call is at level
    INFO exactly when the name is "start" or "stop", and at level DEBUG
    exactly when it is any other name. *)
Theorem log_writer_level (name : string) (doc : Document) :
  exists level,
    log_writer name doc = ([EvLog level "%s: %r" name doc], Ok tt) /\
    (level = "INFO" <-> (name = "start" \/ name = "stop")) /\
    (level = "DEBUG" <-> ~ (name = "start" \/ name = "stop")).
Proof.
  pose proof (in_start_stop_spec name) as Hspec.
  unfold log_writer. destruct (in_start_stop name).
  - exists "INFO". split; [reflexivity|]. split.
    + split; [intros _; apply Hspec; reflexivity | reflexivity].
    + split; [intros H; discriminate H|].
      intros H. exfalso. apply H, Hspec. reflexivity.
  - exists "DEBUG". split; [reflexivity|]. split.
    + split; [intros H; discriminate H|].
      intros H. apply Hspec in H. discriminate H.
    + split; [|reflexivity].
      intros _ H. apply Hspec in H. discriminate H.
Qed.

Lemma log_writer_level_witness :
  exists level,
    log_writer "stop" [("exit_status", PyStr "success")]
    = ([EvLog level "%s: %r" "stop" [("exit_status", PyStr "success")]], Ok tt) /\
    (level = "INFO" <-> ("stop" = "start" \/ "stop" = "stop")) /\
    (level = "DEBUG" <-> ~ ("stop" = "start" \/ "stop" = "stop")).
Proof.
  exact (log_writer_level "stop" [("exit_status", PyStr "success")]).
Defined.

(** ** The end of a run (lines 120-124) *)

(** C9: in a run that reaches the relay loop (the addresses resolve and the
    proxy is constructed), a [KeyboardInterrupt] raised out of
    [proxy.start()] is caught: [main] prints the exit message as its last
    effect and returns normally, so no exception reaches the interpreter. *)
Theorem interrupt_is_clean_exit (w : World) (args : Namespace)
    (t : list event) (a b : value) (p : Proxy.t) :
  resolve_addresses args = (t, Ok (a, b)) ->
  Proxy_new w (coerce w a) (coerce w b) = inr p ->
  Proxy_start w p = inl KeyboardInterrupt ->
  outcome (main w args) = Ok tt /\
  exists t',
    trace (main w args)
    = (t' ++ [EvProxyStart; EvPrint "Interrupted. Exiting..." []])%list.
Proof.
  intros Hres Hnew Hstart. rewrite (main_run w args _ _ _ p Hres Hnew).
  rewrite Hstart. cbn [outcome trace fst snd final_events final_outcome].
  split; [reflexivity|].
  eexists. rewrite !app_assoc. reflexivity.
Qed.

Lemma interrupt_is_clean_exit_witness :
  outcome (main world_interrupted args_legacy) = Ok tt /\
  exists t',
    trace (main world_interrupted args_legacy)
    = (t' ++ [EvProxyStart; EvPrint "Interrupted. Exiting..." []])%list.
Proof.
  apply (interrupt_is_clean_exit world_interrupted args_legacy
           [EvWarn MSG_DEPRECATED_PORTS "FutureWarning" 1]
           (PyInt 5577) (PyInt 5578)
           {| Proxy.in_port := PyInt 5577; Proxy.out_port := PyInt 5578 |});
    reflexivity.
Defined.

(** Any other exception out of [proxy.start()] is not caught. *)
Lemma other_exception_propagates (w : World) (args : Namespace)
    (t : list event) (a b : value) (p : Proxy.t) (e : exn) :
  resolve_addresses args = (t, Ok (a, b)) ->
  Proxy_new w (coerce w a) (coerce w b) = inr p ->
  Proxy_start w p = inl e ->
  is_KeyboardInterrupt e = false ->
  outcome (main w args) = Raise e.
Proof.
  intros Hres Hnew Hstart He. rewrite (main_run w args _ _ _ p Hres Hnew).
  rewrite Hstart. destruct e; [reflexivity | discriminate He | reflexivity].
Qed.

(** ** The log-file path (lines 19-24 and 113-116) *)






(** * Further properties of the module *)

(** ** Address resolution as a whole (lines 63-94) *)

(** X1: the resolution fails exactly when one positional port is given
    without the other, or both are given together with a named address; in
    every other case it returns a pair. *)
Theorem resolution_fails_iff (args : Namespace) :
  (exists e, outcome (resolve_addresses args) = Raise e) <->
  xorb (is_not_None (in_port args)) (is_not_None (out_port args)) = true \/
  is_not_None (in_port args) && is_not_None (out_port args)
  && (is_not_None (in_address_opt args) || is_not_None (out_address_opt args))
  = true.
Proof.
  unfold resolve_addresses.
  destruct (in_port args), (out_port args),
    (in_address_opt args), (out_address_opt args); cbn;
    split;
    solve [ intros [e He]; discriminate He
          | intros [H|H]; discriminate H
          | intros _; eexists; reflexivity
          | intros _; auto ].
Qed.

(** X2: a resolved pair never mixes the two schemes.  Either both values
    are the positional ports, no named address was given and the
    deprecation warning is the one effect; or no port was given, both values
    are the named addresses and there is no effect at all. *)
Theorem resolved_pair_single_scheme (args : Namespace)
    (t : list event) (a b : value) :
  resolve_addresses args = (t, Ok (a, b)) ->
  (exists pa pb,
      in_port args = Some pa /\ out_port args = Some pb /\
      in_address_opt args = None /\ out_address_opt args = None /\
      a = PyInt pa /\ b = PyInt pb /\
      t = [EvWarn MSG_DEPRECATED_PORTS "FutureWarning" 1]) \/
  (in_port args = None /\ out_port args = None /\
   a = of_str (in_address_opt args) /\ b = of_str (out_address_opt args) /\
   t = []).
Proof.
  unfold resolve_addresses.
  destruct (in_port args) as [pa|], (out_port args) as [pb|],
    (in_address_opt args), (out_address_opt args); cbn;
    intros H; try discriminate H; injection H as <- <- <-.
  - left. exists pa, pb. repeat split.
  - right. repeat split.
  - right. repeat split.
  - right. repeat split.
  - right. repeat split.
Qed.

Lemma resolved_pair_single_scheme_witness :
  (exists pa pb,
      in_port args_legacy = Some pa /\ out_port args_legacy = Some pb /\
      in_address_opt args_legacy = None /\ out_address_opt args_legacy = None /\
      PyInt 5577 = PyInt pa /\ PyInt 5578 = PyInt pb /\
      [EvWarn MSG_DEPRECATED_PORTS "FutureWarning" 1]
      = [EvWarn MSG_DEPRECATED_PORTS "FutureWarning" 1]) \/
  (in_port args_legacy = None /\ out_port args_legacy = None /\
   PyInt 5577 = of_str (in_address_opt args_legacy) /\
   PyInt 5578 = of_str (out_address_opt args_legacy) /\
   [EvWarn MSG_DEPRECATED_PORTS "FutureWarning" 1] = []).
Proof.
  apply (resolved_pair_single_scheme args_legacy). reflexivity.
Defined.

(** What [main] does after the resolution never warns. *)
Lemma main_trace_split (w : World) (args : Namespace) :
  exists rest,
    trace (main w args) = (trace (resolve_addresses args) ++ rest)%list /\
    forall m c s, ~ In (EvWarn m c s) rest.
Proof.
  destruct (resolve_addresses args) as [t [[a b]|e]] eqn:Hres.
  - destruct (Proxy_new w (coerce w a) (coerce w b)) as [e|p] eqn:Hnew.
    + rewrite (main_bind_fails w args _ _ _ e Hres Hnew).
      eexists. split; [reflexivity|].
      intros m c s H. cbn [In] in H.
      destruct H as [H|[H|[]]]; discriminate H.
    + rewrite (main_run w args _ _ _ p Hres Hnew).
      eexists. split; [reflexivity|].
      intros m c s H.
      apply (in_app_or (_ :: _ :: _ :: nil)) in H. destruct H as [H|H].
      { cbn [In] in H. destruct H as [H|[H|[H|[]]]]; discriminate H. }
      apply in_app_or in H. destruct H as [H|H].
      { unfold verbose_events in H.
        destruct (verbose args) as [[|n]|]; cbn [In] in H; try contradiction.
        destruct H as [H|[H|[]]]; discriminate H. }
      apply in_app_or in H. destruct H as [H|H].
      { cbn [In] in H. destruct H as [H|[]]. discriminate H. }
      destruct (Proxy_start w p) as [[]|[]]; cbn [final_events In] in H;
        repeat (destruct H as [H|H]; try discriminate H); contradiction.
  - rewrite (main_resolution_fails w args _ _ Hres).
    exists []. split; [cbn [trace fst]; rewrite app_nil_r; reflexivity|].
    intros m c s [].
Qed.

(** X3: a run of [main] warns exactly when it is started with both
    positional ports and no named address; the warning is then the
    [FutureWarning] about the deprecated arguments, whatever happens later
    in the run. *)
Theorem main_warns_iff_legacy (w : World) (args : Namespace) :
  (exists m c s, In (EvWarn m c s) (trace (main w args))) <->
  is_not_None (in_port args) && is_not_None (out_port args)
  && is_None (in_address_opt args) && is_None (out_address_opt args) = true.
Proof.
  destruct (main_trace_split w args) as (rest & Htrace & Hrest).
  rewrite Htrace. unfold resolve_addresses.
  destruct (in_port args), (out_port args),
    (in_address_opt args), (out_address_opt args); cbn; split;
    try solve [ intros (m & c & lvl & H); exfalso; exact (Hrest _ _ _ H)
              | intros H; discriminate H
              | intros _; reflexivity
              | intros _; do 3 eexists; left; reflexivity ].
Qed.

(** ** The coercion as a whole (lines 97-104) *)

(** X4: coercing twice is coercing once: what [main] hands to the proxy is
    stable under the [int] attempt. *)
Theorem coerce_idempotent (w : World) (v : value) :
  coerce w (coerce w v) = coerce w v.
Proof.
  unfold coerce. destruct v as [|n|s]; cbn [Builtins.int]; try reflexivity.
  destruct (Builtins.of_string (unicode_decimal_zeros w) (int_max_str_digits w) s) eqn:E;
    cbn [Builtins.int]; [reflexivity|].
  rewrite E. reflexivity.
Qed.

Lemma digit_char (c : ascii) (d : Z) :
  Builtins.digit c = Some d ->
  Builtins.is_space c = false /\ Ascii.eqb c "+" = false /\
  Ascii.eqb c "-" = false.
Proof.
  destruct c as [[] [] [] [] [] [] [] []]; cbn; intros H;
    solve [discriminate H | auto].
Qed.

Lemma scan_digits (s : string) :
  forall (acc : Z) (k : nat),
    all_chars is_digit s = true ->
    Builtins.scan s false acc k
    = Some (acc * 10 ^ Z.of_nat (String.length s) + positional_value s,
            (k + String.length s)%nat, EmptyString).
Proof.
  induction s as [|c s IH]; intros acc k Hall.
  - cbn. do 3 f_equal; lia.
  - cbn [all_chars] in Hall. apply andb_prop in Hall. destruct Hall as [Hc Hs].
    unfold is_digit in Hc.
    cbn [Builtins.scan positional_value String.length].
    destruct (Builtins.digit c) as [d|]; [|discriminate Hc].
    rewrite (IH _ _ Hs). rewrite Nat2Z.inj_succ, Z.pow_succ_r by lia.
    do 3 f_equal; [ring | lia].
Qed.

Lemma digit_is_ascii (c : ascii) : is_digit c = true -> ascii_char c = true.
Proof.
  destruct c as [[] [] [] [] [] [] [] []]; cbn; intros H;
    solve [discriminate H | reflexivity].
Qed.

Lemma all_chars_impl (f g : ascii -> bool) :
  (forall c, f c = true -> g c = true) ->
  forall s, all_chars f s = true -> all_chars g s = true.
Proof.
  intros Hfg. induction s as [|c s IH]; [reflexivity|].
  cbn [all_chars]. intros H. apply andb_prop in H. destruct H as [Hc Hs].
  rewrite (Hfg c Hc), (IH Hs). reflexivity.
Qed.

(** X6: an address written as a plain string of decimal digits (one to 640
    of them, leading zeros allowed) is coerced to the integer the digits
    denote, whatever the interpreter's limit on literals; this is how
    [--in-address 5577] becomes the bare port 5577. *)
Theorem digit_string_is_port (w : World) (s : string) :
  all_chars is_digit s = true ->
  (1 <= String.length s <= 640)%nat ->
  coerce w (PyStr s) = PyInt (positional_value s).
Proof.
  intros Hall Hlen. destruct s as [|c s]; [cbn in Hlen; lia|].
  pose proof Hall as Hc. cbn [all_chars] in Hc. apply andb_prop in Hc.
  destruct Hc as [Hc _]. unfold is_digit in Hc.
  destruct (Builtins.digit c) as [d|] eqn:Ed; [|discriminate Hc].
  destruct (digit_char c d Ed) as (Hsp & Hplus & Hminus).
  assert (Hparse : Builtins.of_string (unicode_decimal_zeros w)
                     (int_max_str_digits w) (String c s)
                   = Some (positional_value (String c s))).
  { rewrite of_string_ascii
      by (apply (all_chars_impl is_digit ascii_char digit_is_ascii), Hall).
    unfold Builtins.parse. cbn [Builtins.skip_spaces]. rewrite Hsp.
    assert (Hsign : match String c s with
                    | String "+"%char s' => (1, s')
                    | String "-"%char s' => (-1, s')
                    | _ => (1, String c s)
                    end = (1, String c s)).
    { destruct c as [[] [] [] [] [] [] [] []];
        try discriminate Hplus; try discriminate Hminus; reflexivity. }
    rewrite Hsign. rewrite Ed. rewrite (scan_digits _ 0 0%nat Hall).
    cbn [Builtins.skip_spaces].
    assert (Hlim : Builtins.within_limit (int_max_str_digits w)
                     (0 + String.length (String c s)) = true).
    { unfold Builtins.within_limit.
      assert (H640 : (0 + String.length (String c s) <=? 640)%nat = true)
        by (apply Nat.leb_le; lia).
      rewrite H640, orb_true_r. reflexivity. }
    rewrite Hlim. f_equal. lia. }
  unfold coerce. cbn [Builtins.int]. rewrite Hparse. reflexivity.
Qed.

Lemma digit_string_is_port_witness :
  coerce world_interrupted (PyStr "5577") = PyInt (positional_value "5577").
Proof.
  apply (digit_string_is_port world_interrupted "5577");
    [reflexivity | cbn; lia].
Defined.

(** ** A run of [main] as a whole (lines 96-124) *)

(** The three ways the resolution ends, with its effects. *)
Lemma resolve_addresses_cases (args : Namespace) :
  (exists e, resolve_addresses args = ([], Raise e)) \/
  (exists a b,
      resolve_addresses args
      = ([EvWarn MSG_DEPRECATED_PORTS "FutureWarning" 1], Ok (a, b))) \/
  (exists a b, resolve_addresses args = ([], Ok (a, b))).
Proof.
  unfold resolve_addresses.
  destruct (in_port args), (out_port args),
    (in_address_opt args), (out_address_opt args); cbn;
    solve [ left; eexists; reflexivity
          | right; left; do 2 eexists; reflexivity
          | right; right; do 2 eexists; reflexivity ].
Qed.

(** The three ways a run of [main] goes: the resolution fails, the proxy
    cannot be constructed, or the relay loop is entered. *)
Lemma main_cases (w : World) (args : Namespace) :
  (exists t e,
      resolve_addresses args = (t, Raise e) /\ main w args = (t, Raise e)) \/
  (exists t a b e,
      resolve_addresses args = (t, Ok (a, b)) /\
      Proxy_new w (coerce w a) (coerce w b) = inl e /\
      main w args
      = ((t ++ [EvPrint "Connecting..." [];
                EvProxy (coerce w a) (coerce w b)])%list, Raise e)) \/
  (exists t a b p,
      resolve_addresses args = (t, Ok (a, b)) /\
      Proxy_new w (coerce w a) (coerce w b) = inr p /\
      main w args
      = ((t ++ [EvPrint "Connecting..." [];
                EvProxy (coerce w a) (coerce w b);
                EvPrint "Receiving on address %s; publishing to address %s."
                        [Proxy.in_port p; Proxy.out_port p]]
            ++ verbose_events args p
            ++ [EvPrint "Use Ctrl+C to exit." []]
            ++ final_events (Proxy_start w p))%list,
         final_outcome (Proxy_start w p))).
Proof.
  destruct (resolve_addresses args) as [t [[a b]|e]] eqn:Hres.
  - destruct (Proxy_new w (coerce w a) (coerce w b)) as [e|p] eqn:Hnew.
    + right. left. exists t, a, b, e.
      repeat split; [exact Hnew | exact (main_bind_fails w args _ _ _ e Hres Hnew)].
    + right. right. exists t, a, b, p.
      repeat split; [exact Hnew | exact (main_run w args _ _ _ p Hres Hnew)].
  - left. exists t, e. split; [reflexivity|].
    exact (main_resolution_fails w args _ _ Hres).
Qed.

Lemma resolve_addresses_events (args : Namespace)
    (t : list event) (r : result (value * value)) (ev : event) :
  resolve_addresses args = (t, r) ->
  In ev t -> ev = EvWarn MSG_DEPRECATED_PORTS "FutureWarning" 1.
Proof.
  intros Hres Hin. pose proof (resolve_addresses_trace args) as Htr.
  rewrite Hres in Htr. cbn [trace fst] in Htr.
  destruct Htr as [-> | ->]; cbn [In] in Hin; [contradiction|].
  destruct Hin as [<-|[]]. reflexivity.
Qed.

(** Case analysis on the membership of an event in a run. *)
Ltac split_in H :=
  repeat match type of H with
         | In _ (_ ++ _) => apply in_app_or in H; destruct H as [H|H]
         | In _ (_ :: _) => destruct H as [H|H]
         | In _ [] => destruct H
         end.

(** X7: when the [Proxy] constructor raises, whatever the exception (a
    [KeyboardInterrupt] too: the constructor is outside the [try]), [main]
    ends with that exception; besides the effects of the resolution it has
    only printed "Connecting..." and attempted the construction: no
    addresses are reported, no logging is configured, no thread is started
    and the relay loop is never entered. *)
Theorem proxy_failure_propagates (w : World) (args : Namespace)
    (t : list event) (a b : value) (e : exn) :
  resolve_addresses args = (t, Ok (a, b)) ->
  Proxy_new w (coerce w a) (coerce w b) = inl e ->
  outcome (main w args) = Raise e /\
  forall ev, In ev (trace (main w args)) ->
    In ev t \/ ev = EvPrint "Connecting..." []
    \/ ev = EvProxy (coerce w a) (coerce w b).
Proof.
  intros Hres Hnew. rewrite (main_bind_fails w args _ _ _ e Hres Hnew).
  split; [reflexivity|]. cbn [trace fst]. intros ev H.
  split_in H; auto.
Qed.

Lemma proxy_failure_propagates_witness :
  outcome (main world_bind_error args_quiet)
  = Raise (OtherException "zmq.error.ZMQError" "Address already in use") /\
  forall ev, In ev (trace (main world_bind_error args_quiet)) ->
    In ev [] \/ ev = EvPrint "Connecting..." []
    \/ ev = EvProxy (coerce world_bind_error (PyStr "5577"))
                    (coerce world_bind_error (PyStr "5578")).
Proof.
  apply (proxy_failure_propagates world_bind_error args_quiet []
           (PyStr "5577") (PyStr "5578")); reflexivity.
Defined.

(** X8: the message "Interrupted. Exiting..." is printed in exactly one
    kind of run: the addresses resolve, the proxy is constructed, and
    [proxy.start()] ends in a [KeyboardInterrupt]. *)
Theorem exit_message_iff_interrupt (w : World) (args : Namespace) :
  In (EvPrint "Interrupted. Exiting..." []) (trace (main w args)) <->
  exists t a b p,
    resolve_addresses args = (t, Ok (a, b)) /\
    Proxy_new w (coerce w a) (coerce w b) = inr p /\
    Proxy_start w p = inl KeyboardInterrupt.
Proof.
  split.
  - destruct (main_cases w args)
      as [(t & e & Hres & Hmain)
         |[(t & a & b & e & Hres & Hnew & Hmain)
          |(t & a & b & p & Hres & Hnew & Hmain)]];
      rewrite Hmain; cbn [trace fst]; intros H.
    + apply (resolve_addresses_events args _ _ _ Hres) in H. discriminate H.
    + split_in H; try discriminate H.
      apply (resolve_addresses_events args _ _ _ Hres) in H. discriminate H.
    + destruct (Proxy_start w p) as [[msg| |cls msg]|[]] eqn:Hstart;
        try (exists t, a, b, p; auto; fail);
        unfold verbose_events in H;
        destruct (verbose args) as [[|n]|]; cbn [final_events] in H;
        split_in H; try discriminate H;
        apply (resolve_addresses_events args _ _ _ Hres) in H; discriminate H.
  - intros (t & a & b & p & Hres & Hnew & Hstart).
    rewrite (main_run w args _ _ _ p Hres Hnew), Hstart. cbn [trace fst].
    apply in_or_app. right.
    apply (in_or_app (_ :: _ :: _ :: nil)). right.
    apply in_or_app. right. cbn. auto.
Qed.

(** X9: when [proxy.start()] ends in an exception other than
    [KeyboardInterrupt], [main] ends with that exception; entering the
    relay loop is its last effect and the exit message is not printed. *)
Theorem relay_failure_propagates (w : World) (args : Namespace)
    (t : list event) (a b : value) (p : Proxy.t) (e : exn) :
  resolve_addresses args = (t, Ok (a, b)) ->
  Proxy_new w (coerce w a) (coerce w b) = inr p ->
  Proxy_start w p = inl e ->
  is_KeyboardInterrupt e = false ->
  outcome (main w args) = Raise e /\
  exists t', trace (main w args) = (t' ++ [EvProxyStart])%list.
Proof.
  intros Hres Hnew Hstart He. rewrite (main_run w args _ _ _ p Hres Hnew).
  rewrite Hstart. cbn [outcome trace fst snd].
  destruct e; try discriminate He; cbn [final_events final_outcome];
    (split; [reflexivity|]); eexists; rewrite !app_assoc; reflexivity.
Qed.

Lemma relay_failure_propagates_witness :
  outcome (main world_relay_error args_quiet)
  = Raise (OtherException "zmq.error.ContextTerminated" "Context was terminated") /\
  exists t', trace (main world_relay_error args_quiet)
             = (t' ++ [EvProxyStart])%list.
Proof.
  apply (relay_failure_propagates world_relay_error args_quiet []
           (PyStr "5577") (PyStr "5578")
           {| Proxy.in_port := PyInt 5577; Proxy.out_port := PyInt 5578 |});
    reflexivity.
Defined.

(** X10: logging is configured, and the dispatcher thread started, in
    exactly the runs with a verbosity count other than zero in which the
    proxy was constructed; without [-v] no dispatcher ever runs. *)
Theorem dispatcher_started_iff_verbose (w : World) (args : Namespace) :
  ((exists target daemon, In (EvThreadStart target daemon) (trace (main w args)))
   <-> truthy_count (verbose args) = true /\
       exists t a b p,
         resolve_addresses args = (t, Ok (a, b)) /\
         Proxy_new w (coerce w a) (coerce w b) = inr p) /\
  ((exists level file, In (EvConfigLogging level file) (trace (main w args)))
   <-> truthy_count (verbose args) = true /\
       exists t a b p,
         resolve_addresses args = (t, Ok (a, b)) /\
         Proxy_new w (coerce w a) (coerce w b) = inr p).
Proof.
  assert (Hback : forall ev p t a b,
             resolve_addresses args = (t, Ok (a, b)) ->
             Proxy_new w (coerce w a) (coerce w b) = inr p ->
             In ev (verbose_events args p) -> In ev (trace (main w args))).
  { intros ev p t a b Hres Hnew. exact (verbose_events_in_run w args t a b p ev Hres Hnew). }
  split; split.
  - intros (target & daemon & H).
    destruct (main_cases w args)
      as [(t & e & Hres & Hmain)
         |[(t & a & b & e & Hres & Hnew & Hmain)
          |(t & a & b & p & Hres & Hnew & Hmain)]];
      rewrite Hmain in H; cbn [trace fst] in H.
    + apply (resolve_addresses_events args _ _ _ Hres) in H. discriminate H.
    + split_in H; try discriminate H.
      apply (resolve_addresses_events args _ _ _ Hres) in H. discriminate H.
    + unfold verbose_events in H.
      destruct (verbose args) as [[|n]|];
        destruct (Proxy_start w p) as [[]|[]]; cbn [final_events] in H;
        split_in H; try discriminate H;
        try (apply (resolve_addresses_events args _ _ _ Hres) in H;
             discriminate H);
        (split; [reflexivity | exists t, a, b, p; auto]).
  - intros (Hv & t & a & b & p & Hres & Hnew).
    exists (target_start_dispatcher (Proxy.out_port p) None), true.
    apply (Hback _ p t a b Hres Hnew). unfold verbose_events.
    destruct (verbose args) as [[|n]|]; try discriminate Hv. cbn. auto.
  - intros (level & file & H).
    destruct (main_cases w args)
      as [(t & e & Hres & Hmain)
         |[(t & a & b & e & Hres & Hnew & Hmain)
          |(t & a & b & p & Hres & Hnew & Hmain)]];
      rewrite Hmain in H; cbn [trace fst] in H.
    + apply (resolve_addresses_events args _ _ _ Hres) in H. discriminate H.
    + split_in H; try discriminate H.
      apply (resolve_addresses_events args _ _ _ Hres) in H. discriminate H.
    + unfold verbose_events in H.
      destruct (verbose args) as [[|n]|];
        destruct (Proxy_start w p) as [[]|[]]; cbn [final_events] in H;
        split_in H; try discriminate H;
        try (apply (resolve_addresses_events args _ _ _ Hres) in H;
             discriminate H);
        (split; [reflexivity | exists t, a, b, p; auto]).
  - intros (Hv & t & a & b & p & Hres & Hnew).
    destruct (verbose args) as [[|n]|] eqn:Ev; try discriminate Hv.
    exists (level_of (S n)),
           (if truthy_str (logfile args) then logfile args else None).
    apply (Hback _ p t a b Hres Hnew). unfold verbose_events.
    rewrite Ev. cbn. auto.
Qed.

(** X11: in a verbose run the dispatcher thread is started after logging
    is configured and before the relay loop is entered, and the first thing
    the thread does is to connect to the port the proxy reports as its
    [out_port], not to the address that was asked for. *)
Theorem dispatcher_before_relay (w : World) (args : Namespace)
    (t : list event) (a b : value) (p : Proxy.t) (n : nat) :
  resolve_addresses args = (t, Ok (a, b)) ->
  Proxy_new w (coerce w a) (coerce w b) = inr p ->
  verbose args = Some (S n) ->
  let thread := target_start_dispatcher (Proxy.out_port p) None in
  (exists pre file post,
      trace (main w args)
      = (pre ++ EvConfigLogging (level_of (S n)) file
             :: EvThreadStart thread true :: post)%list /\
      (forall ev, In ev pre -> is_EvProxyStart ev = false) /\
      In EvProxyStart post) /\
  exists rest,
    trace (run_target w thread)
    = EvRemoteDispatcher (Proxy.out_port p) :: rest.
Proof.
  intros Hres Hnew Hv thread. split.
  - rewrite (main_run w args _ _ _ p Hres Hnew). unfold verbose_events.
    rewrite Hv. cbn [trace fst].
    exists (t ++ [EvPrint "Connecting..." [];
                  EvProxy (coerce w a) (coerce w b);
                  EvPrint "Receiving on address %s; publishing to address %s."
                          [Proxy.in_port p; Proxy.out_port p]])%list.
    eexists. eexists. split; [rewrite <- app_assoc; reflexivity|]. split.
    + intros ev H. split_in H; try (subst ev; reflexivity).
      apply (resolve_addresses_events args _ _ _ Hres) in H. subst ev.
      reflexivity.
    + destruct (Proxy_start w p) as [[]|[]]; cbn; auto.
  - unfold thread, run_target. rewrite start_dispatcher_run.
    eexists. reflexivity.
Qed.

Lemma dispatcher_before_relay_witness :
  (exists pre file post,
      trace (main world_ephemeral args_auto)
      = (pre ++ EvConfigLogging (level_of 1) file
             :: EvThreadStart (target_start_dispatcher (PyInt 49153) None) true
             :: post)%list /\
      (forall ev, In ev pre -> is_EvProxyStart ev = false) /\
      In EvProxyStart post) /\
  exists rest,
    trace (run_target world_ephemeral
             (target_start_dispatcher (PyInt 49153) None))
    = EvRemoteDispatcher (PyInt 49153) :: rest.
Proof.
  apply (dispatcher_before_relay world_ephemeral args_auto [] PyNone PyNone
           {| Proxy.in_port := PyInt 49152; Proxy.out_port := PyInt 49153 |} 0);
    reflexivity.
Defined.

(** X12: the line "Receiving on address ...; publishing to address ..." is
    printed exactly in the runs in which the proxy was constructed, and the
    two addresses it shows are the proxy's own [in_port] and [out_port]:
    ports the proxy picked by itself are the ones reported. *)
Theorem bound_ports_reported (w : World) (args : Namespace) (vs : list value) :
  In (EvPrint "Receiving on address %s; publishing to address %s." vs)
     (trace (main w args)) <->
  exists t a b p,
    resolve_addresses args = (t, Ok (a, b)) /\
    Proxy_new w (coerce w a) (coerce w b) = inr p /\
    vs = [Proxy.in_port p; Proxy.out_port p].
Proof.
  split.
  - intros H.
    destruct (main_cases w args)
      as [(t & e & Hres & Hmain)
         |[(t & a & b & e & Hres & Hnew & Hmain)
          |(t & a & b & p & Hres & Hnew & Hmain)]];
      rewrite Hmain in H; cbn [trace fst] in H.
    + apply (resolve_addresses_events args _ _ _ Hres) in H. discriminate H.
    + split_in H; try discriminate H.
      apply (resolve_addresses_events args _ _ _ Hres) in H. discriminate H.
    + unfold verbose_events in H.
      destruct (verbose args) as [[|n]|];
        destruct (Proxy_start w p) as [[]|[]]; cbn [final_events] in H;
        split_in H; try discriminate H;
        try (apply (resolve_addresses_events args _ _ _ Hres) in H;
             discriminate H);
        injection H as <-; exists t, a, b, p; auto.
  - intros (t & a & b & p & Hres & Hnew & ->).
    rewrite (main_run w args _ _ _ p Hres Hnew). cbn [trace fst].
    apply in_or_app. right. cbn. auto.
Qed.

Lemma first_occurrence {A : Type} (x : A) (l1 l2 : list A) :
  ~ In x l1 ->
  forall pre post,
    (l1 ++ x :: l2 = pre ++ x :: post)%list ->
    exists mid, pre = (l1 ++ mid)%list.
Proof.
  induction l1 as [|a l1 IH]; intros Hnot pre post H.
  - exists pre. reflexivity.
  - destruct pre as [|y pre].
    + cbn in H. injection H as Ha _. exfalso. apply Hnot. left. exact Ha.
    + cbn in H. injection H as <- H.
      destruct (IH (fun Hin => Hnot (or_intror Hin)) pre post H) as [mid ->].
      exists mid. reflexivity.
Qed.

(** X13: a run constructs the proxy at most once and enters the relay loop
    at most once, and whenever it enters the relay loop the construction of
    the proxy comes before it in the run: nothing is bound again or
    restarted, and nothing is started before it is constructed. *)
Theorem proxy_constructed_once (w : World) (args : Namespace) :
  (List.length (filter is_EvProxy (trace (main w args))) <= 1)%nat /\
  (List.length (filter is_EvProxyStart (trace (main w args))) <= 1)%nat /\
  forall pre post,
    trace (main w args) = (pre ++ EvProxyStart :: post)%list ->
    exists a b, In (EvProxy a b) pre.
Proof.
  destruct (main_cases w args)
    as [(t & e & Hres & Hmain)
       |[(t & a & b & e & Hres & Hnew & Hmain)
        |(t & a & b & p & Hres & Hnew & Hmain)]];
    rewrite Hmain; cbn [trace fst];
    pose proof (resolve_addresses_trace args) as Htr;
    rewrite Hres in Htr; cbn [trace fst] in Htr.
  - split; [destruct Htr as [-> | ->]; cbn; lia|].
    split; [destruct Htr as [-> | ->]; cbn; lia|].
    intros pre post H.
    assert (Hin : In EvProxyStart t) by (rewrite H; apply in_elt).
    apply (resolve_addresses_events args _ _ _ Hres) in Hin. discriminate Hin.
  - split; [destruct Htr as [-> | ->]; cbn; lia|].
    split; [destruct Htr as [-> | ->]; cbn; lia|].
    intros pre post H.
    assert (Hin : In EvProxyStart
                    (t ++ [EvPrint "Connecting..." [];
                           EvProxy (coerce w a) (coerce w b)]))
      by (rewrite H; apply in_elt).
    split_in Hin; try discriminate Hin.
    apply (resolve_addresses_events args _ _ _ Hres) in Hin. discriminate Hin.
  - split.
    { unfold verbose_events.
      destruct Htr as [-> | ->];
        destruct (verbose args) as [[|n]|];
        destruct (Proxy_start w p) as [[]|[]]; cbn; lia. }
    split.
    { unfold verbose_events.
      destruct Htr as [-> | ->];
        destruct (verbose args) as [[|n]|];
        destruct (Proxy_start w p) as [[]|[]]; cbn; lia. }
    intros pre post H.
    assert (Hfinal : exists F, final_events (Proxy_start w p) = EvProxyStart :: F)
      by (destruct (Proxy_start w p) as [[]|[]]; eexists; reflexivity).
    destruct Hfinal as [F HF]. rewrite HF in H.
    rewrite !app_assoc in H.
    match type of H with
    | (?L ++ EvProxyStart :: F)%list = _ =>
        assert (Hnot : ~ In EvProxyStart L)
    end.
    { intros Hin. unfold verbose_events in Hin.
      destruct (verbose args) as [[|n]|];
        split_in Hin; try discriminate Hin;
        apply (resolve_addresses_events args _ _ _ Hres) in Hin;
        discriminate Hin. }
    destruct (first_occurrence _ _ _ Hnot _ _ H) as [mid ->].
    exists (coerce w a), (coerce w b).
    apply in_or_app. left. rewrite <- !app_assoc.
    apply in_or_app. right. cbn. auto.
Qed.

(** X14: [main] returns normally in exactly two kinds of run, both with the
    proxy constructed: [proxy.start()] ends in a [KeyboardInterrupt], or it
    returns.  Every other run ends in an exception. *)
Theorem main_returns_iff (w : World) (args : Namespace) :
  outcome (main w args) = Ok tt <->
  exists t a b p,
    resolve_addresses args = (t, Ok (a, b)) /\
    Proxy_new w (coerce w a) (coerce w b) = inr p /\
    (Proxy_start w p = inl KeyboardInterrupt \/ Proxy_start w p = inr tt).
Proof.
  split.
  - destruct (main_cases w args)
      as [(t & e & Hres & Hmain)
         |[(t & a & b & e & Hres & Hnew & Hmain)
          |(t & a & b & p & Hres & Hnew & Hmain)]];
      rewrite Hmain; cbn [outcome snd]; intros H; try discriminate H.
    exists t, a, b, p. split; [exact Hres|]. split; [exact Hnew|].
    destruct (Proxy_start w p) as [[]|[]]; cbn in H;
      try discriminate H; auto.
  - intros (t & a & b & p & Hres & Hnew & Hstart).
    rewrite (main_run w args _ _ _ p Hres Hnew). cbn [outcome snd].
    destruct Hstart as [-> | ->]; reflexivity.
Qed.

(** ** The dispatcher thread as a whole (lines 11-39) *)

Lemma logged_pairs_log_calls (stream : list (string * Document)) :
  logged_pairs (map log_call stream) = stream.
Proof.
  induction stream as [|[name doc] stream IH]; [reflexivity|].
  cbn [map]. unfold log_call at 1. cbn [logged_pairs fst snd].
  rewrite IH. reflexivity.
Qed.

(** X15: called without a log file, [start_dispatcher] returns no error
    and subscribes [log_writer] once: over the stream the dispatcher
    delivers, the log calls carry exactly the received (name, document)
    pairs, each once and in the order received, and every call uses the
    format "%s: %r". *)
Theorem start_dispatcher_logs_stream (w : World) (out_address : value) :
  outcome (start_dispatcher w out_address None) = Ok tt /\
  logged_pairs (trace (start_dispatcher w out_address None)) = received w /\
  forall level fmt name doc,
    In (EvLog level fmt name doc) (trace (start_dispatcher w out_address None)) ->
    fmt = "%s: %r" /\ In (name, doc) (received w) /\
    (level = "INFO" \/ level = "DEBUG").
Proof.
  rewrite start_dispatcher_run. cbn [outcome trace fst snd].
  split; [reflexivity|]. split.
  - cbn [logged_pairs]. apply logged_pairs_log_calls.
  - intros level fmt name doc H.
    destruct H as [H|[H|H]]; try discriminate H.
    apply in_map_iff in H. destruct H as ([name' doc'] & Hcall & Hin).
    unfold log_call in Hcall. cbn [fst snd] in Hcall.
    injection Hcall as <- <- <- <-.
    split; [reflexivity|]. split; [exact Hin|].
    destruct (in_start_stop name'); auto.
Qed.

(** ** What reaches the proxy (lines 97-106) *)

Lemma proxy_arguments (w : World) (args : Namespace) (x y : value) :
  In (EvProxy x y) (trace (main w args)) ->
  exists t a b,
    resolve_addresses args = (t, Ok (a, b)) /\
    x = coerce w a /\ y = coerce w b.
Proof.
  intros H.
  destruct (main_cases w args)
    as [(t & e & Hres & Hmain)
       |[(t & a & b & e & Hres & Hnew & Hmain)
        |(t & a & b & p & Hres & Hnew & Hmain)]];
    rewrite Hmain in H; cbn [trace fst] in H.
  - apply (resolve_addresses_events args _ _ _ Hres) in H. discriminate H.
  - split_in H; try discriminate H.
    + apply (resolve_addresses_events args _ _ _ Hres) in H. discriminate H.
    + injection H as <- <-. exists t, a, b. auto.
  - unfold verbose_events in H.
    destruct (verbose args) as [[|n]|];
      destruct (Proxy_start w p) as [[]|[]]; cbn [final_events] in H;
      split_in H; try discriminate H;
      try (apply (resolve_addresses_events args _ _ _ Hres) in H;
           discriminate H);
      injection H as <- <-; exists t, a, b; auto.
Qed.

Lemma coerce_str (w : World) (v : value) (s : string) :
  coerce w v = PyStr s ->
  v = PyStr s /\
  Builtins.of_string (unicode_decimal_zeros w) (int_max_str_digits w) s = None.
Proof.
  unfold coerce. destruct v as [|m|s']; cbn [Builtins.int]; intros H;
    try discriminate H.
  destruct (Builtins.of_string (unicode_decimal_zeros w)
              (int_max_str_digits w) s') eqn:E; [discriminate H|].
  injection H as <-. auto.
Qed.

(** X5: what a coerced address can be.  It is [None] only for a missing
    address; it is a string only for that same string, and then [int]
    refuses the string; it is an integer only for that integer or for a
    string that [int] parses to it.  So in every run of [main], a string
    among the two arguments the proxy is constructed from is one that [int]
    refuses: no string that reads as an integer reaches the proxy. *)
Theorem coerce_inversion (w : World) :
  (forall v, coerce w v = PyNone <-> v = PyNone) /\
  (forall v s,
      coerce w v = PyStr s ->
      v = PyStr s /\
      Builtins.of_string (unicode_decimal_zeros w) (int_max_str_digits w) s
      = None) /\
  (forall v n,
      coerce w v = PyInt n ->
      v = PyInt n \/
      exists s,
        v = PyStr s /\
        Builtins.of_string (unicode_decimal_zeros w) (int_max_str_digits w) s
        = Some n) /\
  (forall args x y s,
      In (EvProxy x y) (trace (main w args)) ->
      x = PyStr s \/ y = PyStr s ->
      Builtins.of_string (unicode_decimal_zeros w) (int_max_str_digits w) s
      = None).
Proof.
  split; [|split; [|split]].
  - intros v. unfold coerce. destruct v as [|m|s]; cbn [Builtins.int].
    + tauto.
    + split; intros H; discriminate H.
    + destruct (Builtins.of_string (unicode_decimal_zeros w)
                  (int_max_str_digits w) s);
        split; intros H; discriminate H.
  - exact (coerce_str w).
  - intros v n. unfold coerce. destruct v as [|m|s]; cbn [Builtins.int].
    + intros H. discriminate H.
    + intros H. left. exact H.
    + destruct (Builtins.of_string (unicode_decimal_zeros w)
                  (int_max_str_digits w) s) as [m|] eqn:E;
        intros H; [|discriminate H].
      injection H as <-. right. exists s. auto.
  - intros args x y s H Hxy.
    destruct (proxy_arguments w args x y H) as (t & a & b & _ & -> & ->).
    destruct Hxy as [Hx|Hy].
    + exact (proj2 (coerce_str w a s Hx)).
    + exact (proj2 (coerce_str w b s Hy)).
Qed.

Lemma coerce_inversion_witness :
  (PyStr "localhost:6000" = PyStr "localhost:6000" /\
   Builtins.of_string (unicode_decimal_zeros world_interrupted)
     (int_max_str_digits world_interrupted) "localhost:6000" = None) /\
  Builtins.of_string (unicode_decimal_zeros world_interrupted)
    (int_max_str_digits world_interrupted) "localhost:6000" = None.
Proof.
  destruct (coerce_inversion world_interrupted) as (_ & Hstr & _ & Hmain).
  split.
  - apply (Hstr (PyStr "localhost:6000")). reflexivity.
  - apply (Hmain (args_current 1) (PyInt 5577) (PyStr "localhost:6000")).
    + cbn. auto.
    + right. reflexivity.
Defined.
